(** * CuMind documentation sync: a model of [scripts/sync-cumind-docs.py]

    The script wipes a local directory, lists the Markdown files of a remote
    documentation folder, downloads each of them, stores them with a default
    front-matter block and rewrites the [nav] list of [mkdocs.yml].

    The development follows the script function by function.  Python
    strings are [string]s (ASCII text), the destination directory is a
    finite map from entry names to file contents, the parsed [mkdocs.yml]
    is a YAML value, and the effects of the script (file system, console,
    exceptions) are threaded through a small state-and-exception monad. *)

From Stdlib Require Import ZArith Ascii String List Sorting.Sorted Permutation Lia.
From stdpp Require Import base option list gmap strings sorting pretty.

Local Open Scope string_scope.

Set Warnings "-register-all".

(** ** Python string methods *)

Module PyStr.

Definition nl : string := String "010"%char "".

(** [s.startswith(p)] *)
Fixpoint startswith (s p : string) {struct p} : bool :=
  match p with
  | "" => true
  | String a p' =>
      match s with
      | "" => false
      | String b s' => if Ascii.eqb a b then startswith s' p' else false
      end
  end.

(** [s.endswith(suf)]: [s] itself or one of its tails is [suf]. *)
Fixpoint endswith (s suf : string) : bool :=
  if String.eqb s suf then true
  else match s with
       | "" => false
       | String _ s' => endswith s' suf
       end.

(** [s.replace(old, new)] scans from the left and substitutes every
    non-overlapping occurrence of [old].  [skip] counts the characters of
    an occurrence already replaced that are still to be dropped. *)
Fixpoint replace_go (old new : string) (skip : nat) (s : string) : string :=
  match s with
  | "" => ""
  | String c s' =>
      match skip with
      | S k => replace_go old new k s'
      | O =>
          if startswith s old
          then new +:+ replace_go old new (String.length old - 1) s'
          else String c (replace_go old new 0 s')
      end
  end.

Fixpoint intersperse (new s : string) : string :=
  match s with
  | "" => ""
  | String c s' => String c (new +:+ intersperse new s')
  end.

Definition replace (old new s : string) : string :=
  match old with
  | "" => new +:+ intersperse new s
  | String _ _ => replace_go old new 0 s
  end.

Definition is_upper (c : ascii) : bool :=
  (65 <=? nat_of_ascii c)%nat && (nat_of_ascii c <=? 90)%nat.
Definition is_lower (c : ascii) : bool :=
  (97 <=? nat_of_ascii c)%nat && (nat_of_ascii c <=? 122)%nat.
Definition is_cased (c : ascii) : bool := is_upper c || is_lower c.
Definition to_upper (c : ascii) : ascii :=
  if is_lower c then ascii_of_nat (nat_of_ascii c - 32) else c.
Definition to_lower (c : ascii) : ascii :=
  if is_upper c then ascii_of_nat (nat_of_ascii c + 32) else c.

(** [s.title()]: a cased character is upper-cased when the character
    before it is not cased, and lower-cased otherwise. *)
Fixpoint title_go (previous_is_cased : bool) (s : string) : string :=
  match s with
  | "" => ""
  | String c s' =>
      String (if previous_is_cased then to_lower c else to_upper c)
             (title_go (is_cased c) s')
  end.

Definition title (s : string) : string := title_go false s.

(** [sub in s] on strings. *)
Fixpoint contains (s sub : string) : bool :=
  if startswith s sub then true
  else match s with
       | "" => false
       | String _ s' => contains s' sub
       end.

(** Iterating a string yields its characters as one-character strings. *)
Fixpoint chars (s : string) : list string :=
  match s with
  | "" => []
  | String c s' => String c "" :: chars s'
  end.

End PyStr.

Import PyStr.

(** ** YAML documents

    What [yaml.safe_load] returns for the scalars and collections an
    [mkdocs.yml] is made of.  A mapping is a Python [dict]: an association
    list in insertion order (the order [yaml.dump(..., sort_keys=False)]
    writes back). *)

Module Yaml.

Inductive yaml : Type :=
| YNull
| YBool (b : bool)
| YInt (z : Z)
| YStr (s : string)
| YList (items : list yaml)
| YMap (items : list (string * yaml)).

Definition dict := list (string * yaml).

(** [k in d] *)
Definition dict_contains (k : string) (d : dict) : bool :=
  existsb (fun kv => String.eqb k kv.1) d.

(** [d[k]] *)
Fixpoint dict_get (k : string) (d : dict) : option yaml :=
  match d with
  | [] => None
  | (k', v) :: d' => if String.eqb k k' then Some v else dict_get k d'
  end.

(** [d[k] = v]: an existing key keeps its position, a new key goes last. *)
Fixpoint dict_set (k : string) (v : yaml) (d : dict) : dict :=
  match d with
  | [] => [(k, v)]
  | (k', v') :: d' =>
      if String.eqb k k' then (k, v) :: d' else (k', v') :: dict_set k v d'
  end.

(** Every string that occurs as a scalar below a value. *)
Fixpoint yaml_strings (y : yaml) : list string :=
  match y with
  | YStr s => [s]
  | YList items => flat_map yaml_strings items
  | YMap items => flat_map (fun kv => yaml_strings kv.2) items
  | _ => []
  end.

End Yaml.

Import Yaml.

(** ** Effects: exceptions, the remote host, the local state *)

(** The exceptions the script can meet.  [ConnectionError] and [HTTPError]
    are subclasses of [requests.exceptions.RequestException]; the others
    are built-in exceptions that no handler of the script catches. *)
Inductive exn : Type :=
| ConnectionError (msg : string)
| HTTPError (msg : string)
| TypeError (msg : string)
| KeyError (key : string)
| AttributeError (msg : string)
| FileNotFoundError (path : string).

Definition is_RequestException (e : exn) : bool :=
  match e with
  | ConnectionError _ | HTTPError _ => true
  | TypeError _ | KeyError _ | AttributeError _ | FileNotFoundError _ => false
  end.

(** [str(e)] *)
Definition exn_str (e : exn) : string :=
  match e with
  | ConnectionError msg | HTTPError msg | TypeError msg | AttributeError msg => msg
  | KeyError key => "'" +:+ key +:+ "'"
  | FileNotFoundError path =>
      "[Errno 2] No such file or directory: '" +:+ path +:+ "'"
  end.

Inductive res (A : Type) : Type :=
| Ok (a : A)
| Raise (e : exn).
Arguments Ok {A} a.
Arguments Raise {A} e.

(** A [RemoteFileRef]: one object of the contents listing. *)
Record file_info : Type := FileInfo { name : string; download_url : string }.

#[global] Instance file_info_eq_dec : EqDecision file_info.
Proof. solve_decision. Defined.

Record response (A : Type) : Type :=
  Response { status_code : Z; reason : string; url : string; body : A }.
Arguments Response {A}.
Arguments status_code {A}.
Arguments reason {A}.
Arguments url {A}.
Arguments body {A}.

Definition headers := list (string * string).

(** What one [requests.get] meets: no answer at all (connection refused,
    timeout, ...), or an HTTP response. *)
Inductive http (A : Type) : Type :=
| Failed (msg : string)
| Answer (r : response A).
Arguments Failed {A} msg.
Arguments Answer {A} r.

(** The world outside the process: the environment variable and the HTTP
    host.  The listing endpoint answers with decoded JSON (the list of
    objects of the remote contract), a download location with text. *)
Record env : Type := Env {
  GITHUB_TOKEN : option string;
  get_contents : string -> headers -> http (list file_info);
  get_raw : string -> headers -> http string
}.

(** The state the script reads and writes: the directory
    [LOCAL_CUMIND_DOCS_PATH] (absent, or the files it holds by name), the
    document in [mkdocs.yml], and the lines printed so far.  File names are
    plain entry names, as the contents listing gives them; [mkdocs.yml] is
    taken to exist and to parse, and [yaml.dump] followed by
    [yaml.safe_load] to give the document back. *)
Record world : Type := World {
  docs_dir : option (gmap string string);
  mkdocs_yml : yaml;
  stdout : list string
}.

Definition M (A : Type) : Type := world -> res A * world.

Definition ret {A} (a : A) : M A := fun w => (Ok a, w).

Definition bind {A B} (c : M A) (k : A -> M B) : M B :=
  fun w => match c w with
           | (Ok a, w') => k a w'
           | (Raise e, w') => (Raise e, w')
           end.

Definition raise {A} (e : exn) : M A := fun w => (Raise e, w).

(** [try: body  except requests.exceptions.RequestException as e: handler] *)
Definition try_except {A} (body : M A) (handler : exn -> M A) : M A :=
  fun w => match body w with
           | (Ok a, w') => (Ok a, w')
           | (Raise e, w') =>
               if is_RequestException e then handler e w' else (Raise e, w')
           end.

Definition lift_res {A} (r : res A) : M A := fun w => (r, w).

Definition res_bind {A B} (r : res A) (k : A -> res B) : res B :=
  match r with
  | Ok a => k a
  | Raise e => Raise e
  end.

Declare Scope py_scope.
Delimit Scope py_scope with py.
Notation "x <- c ;; k" := (bind c (fun x => k))
  (at level 100, c at next level, right associativity) : py_scope.
Notation "c ;; k" := (bind c (fun _ => k))
  (at level 100, right associativity) : py_scope.
Declare Scope res_scope.
Delimit Scope res_scope with res.
Notation "x <- c ;; k" := (res_bind c (fun x => k))
  (at level 100, c at next level, right associativity) : res_scope.
Local Open Scope py_scope.

(** [for x in l: body x] *)
Fixpoint for_each {A} (l : list A) (body : A -> M unit) : M unit :=
  match l with
  | [] => ret tt
  | x :: l' => body x ;; for_each l' body
  end.

Definition print (line : string) : M unit :=
  fun w => (Ok tt, World (docs_dir w) (mkdocs_yml w) (stdout w ++ [line])).

(** Truth value of a [str]. *)
Definition str_truthy (s : string) : bool := negb (String.eqb s "").

(** ** The script *)

Definition CUMIND_REPO : string := "carletonai/CuMind".
Definition CUMIND_BRANCH : string := "dev".
Definition CUMIND_DOCS_PATH : string := "docs".
Definition LOCAL_CUMIND_DOCS_PATH : string := "docs/CuMind".
Definition GITHUB_API_BASE : string := "https://api.github.com".

Definition get_github_token (E : env) : string :=
  default "" (GITHUB_TOKEN E).

(** [headers = {}; if token: headers['Authorization'] = f'token {token}'] *)
Definition auth_headers (E : env) : headers :=
  let token := get_github_token E in
  if str_truthy token then [("Authorization", "token " +:+ token)] else [].

(** [requests.get]: a transport failure raises a [RequestException]. *)
Definition requests_get {A} (h : http A) : M (response A) :=
  match h with
  | Failed msg => raise (ConnectionError msg)
  | Answer r => ret r
  end.

(** [response.raise_for_status()] *)
Definition raise_for_status {A} (r : response A) : M unit :=
  if (400 <=? status_code r)%Z && (status_code r <? 500)%Z then
    raise (HTTPError (pretty (status_code r) +:+ " Client Error: " +:+ reason r
                      +:+ " for url: " +:+ url r))
  else if (500 <=? status_code r)%Z && (status_code r <? 600)%Z then
    raise (HTTPError (pretty (status_code r) +:+ " Server Error: " +:+ reason r
                      +:+ " for url: " +:+ url r))
  else ret tt.

Definition tree_url : string :=
  GITHUB_API_BASE +:+ "/repos/" +:+ CUMIND_REPO +:+ "/contents/"
  +:+ CUMIND_DOCS_PATH +:+ "?ref=" +:+ CUMIND_BRANCH.

Definition fetch_docs_from_github (E : env) : M (list file_info) :=
  let headers := auth_headers E in
  try_except
    (response <- requests_get (get_contents E tree_url headers) ;;
     raise_for_status response ;;
     let files := body response in
     let md_files := List.filter (fun f => endswith (name f) ".md") files in
     ret md_files)
    (fun e =>
       print ("Error fetching docs list: " +:+ exn_str e) ;;
       ret []).

(** Returns the text, or [None]. *)
Definition download_file (E : env) (file_info : file_info) (headers : headers)
  : M (option string) :=
  try_except
    (response <- requests_get (get_raw E (download_url file_info) headers) ;;
     raise_for_status response ;;
     ret (Some (body response)))
    (fun e =>
       print ("Error downloading " +:+ name file_info +:+ ": " +:+ exn_str e) ;;
       ret None).

(** [Path(LOCAL_CUMIND_DOCS_PATH).mkdir(parents=True, exist_ok=True)] *)
Definition ensure_cumind_docs_dir : M unit :=
  fun w => match docs_dir w with
           | Some _ => (Ok tt, w)
           | None => (Ok tt, World (Some ∅) (mkdocs_yml w) (stdout w))
           end.

Definition os_path_exists : M bool :=
  fun w => (Ok (bool_decide (is_Some (docs_dir w))), w).

Definition shutil_rmtree : M unit :=
  fun w => match docs_dir w with
           | Some _ => (Ok tt, World None (mkdocs_yml w) (stdout w))
           | None => (Raise (FileNotFoundError LOCAL_CUMIND_DOCS_PATH), w)
           end.

Definition clean_cumind_docs_dir : M unit :=
  b <- os_path_exists ;;
  (if b then shutil_rmtree else ret tt) ;;
  ensure_cumind_docs_dir.

(** The title expression of lines 67 and 96:
    [filename.replace('.md', '').replace('_', ' ').replace('-', ' ').title()] *)
Definition title_of (filename : string) : string :=
  title (replace "-" " " (replace "_" " " (replace ".md" "" filename))).

(** The text [save_doc_file] writes for [content]. *)
Definition with_frontmatter (filename content : string) : string :=
  if negb (startswith content "---") then
    let title := title_of filename in
    "---" +:+ nl +:+ "title: " +:+ title +:+ nl +:+ "---" +:+ nl +:+ nl +:+ content
  else content.

(** [with open(filepath, 'w', encoding='utf-8') as f: f.write(content)] *)
Definition write_file (filename content : string) : M unit :=
  fun w => match docs_dir w with
           | Some d =>
               (Ok tt, World (Some (<[filename := content]> d)) (mkdocs_yml w) (stdout w))
           | None =>
               (Raise (FileNotFoundError (LOCAL_CUMIND_DOCS_PATH +:+ "/" +:+ filename)), w)
           end.

Definition save_doc_file (filename content : string) : M unit :=
  let content := with_frontmatter filename content in
  write_file filename content ;;
  print ("Saved: " +:+ filename).

(** [yaml.safe_load] of [mkdocs.yml] and [yaml.dump] back to it. *)
Definition yaml_safe_load : M yaml := fun w => (Ok (mkdocs_yml w), w).

Definition yaml_dump (config : yaml) : M unit :=
  fun w => (Ok tt, World (docs_dir w) config (stdout w)).

(** [os.listdir(LOCAL_CUMIND_DOCS_PATH)], in whatever order the system
    gives. *)
Definition os_listdir : M (list string) :=
  fun w => match docs_dir w with
           | Some d => (Ok (map_to_list d).*1, w)
           | None => (Raise (FileNotFoundError LOCAL_CUMIND_DOCS_PATH), w)
           end.

(** [sorted] on a list of [str]. *)
Definition sorted (l : list string) : list string := merge_sort String.le l.

(** [k in config] for whatever [safe_load] returned. *)
Definition py_contains (k : string) (config : yaml) : res bool :=
  match config with
  | YMap d => Ok (dict_contains k d)
  | YList l => Ok (existsb (fun y => match y with
                                     | YStr s => String.eqb s k
                                     | _ => false
                                     end) l)
  | YStr s => Ok (contains s k)
  | _ => Raise (TypeError "argument is not iterable")
  end.

(** [config[k]] with a [str] key. *)
Definition py_getitem (config : yaml) (k : string) : res yaml :=
  match config with
  | YMap d =>
      match dict_get k d with
      | Some v => Ok v
      | None => Raise (KeyError k)
      end
  | _ => Raise (TypeError "indices must be integers")
  end.

(** [config[k] = v] with a [str] key. *)
Definition py_setitem (config : yaml) (k : string) (v : yaml) : res yaml :=
  match config with
  | YMap d => Ok (YMap (dict_set k v d))
  | _ => Raise (TypeError "object does not support item assignment")
  end.

(** [for item in v]: a list gives its items, a dict its keys, a string its
    characters; the other scalars are not iterable. *)
Definition py_iter (v : yaml) : res (list yaml) :=
  match v with
  | YList l => Ok l
  | YMap d => Ok (List.map (fun kv => YStr kv.1) d)
  | YStr s => Ok (List.map YStr (chars s))
  | _ => Raise (TypeError "object is not iterable")
  end.

(** [v.append(x)] *)
Definition py_append (v x : yaml) : res yaml :=
  match v with
  | YList l => Ok (YList (l ++ [x])%list)
  | _ => Raise (AttributeError "object has no attribute 'append'")
  end.

(** [isinstance(item, dict) and 'CuMind' in item] *)
Definition is_cumind_item (item : yaml) : bool :=
  match item with
  | YMap d => dict_contains "CuMind" d
  | _ => false
  end.

(** The entry of one synced file: [{title: path}]. *)
Definition nav_entry (file : string) : yaml :=
  let title := title_of file in
  let path := "CuMind/" +:+ file in
  YMap [(title, YStr path)].

(** Lines 100 to 108: the mutation of the loaded [config]. *)
Definition merge_nav (config : yaml) (cumind_nav : list yaml) : res yaml :=
  (has_nav <- py_contains "nav" config ;;
   config <- (if negb has_nav then py_setitem config "nav" (YList [])
              else Ok config) ;;
   nav <- py_getitem config "nav" ;;
   items <- py_iter nav ;;
   let kept := List.filter (fun item => negb (is_cumind_item item)) items in
   config <- py_setitem config "nav" (YList kept) ;;
   nav <- py_getitem config "nav" ;;
   nav <- py_append nav (YMap [("CuMind", YList cumind_nav)]) ;;
   py_setitem config "nav" nav)%res.

Definition update_mkdocs_nav : M unit :=
  config <- yaml_safe_load ;;
  names <- os_listdir ;;
  let cumind_files := sorted (List.filter (fun f => endswith f ".md") names) in
  match cumind_files with
  | [] => print "No CuMind documentation files found to add to navigation"
  | _ :: _ =>
      let cumind_nav := List.map nav_entry cumind_files in
      config <- lift_res (merge_nav config cumind_nav) ;;
      yaml_dump config ;;
      print "Updated mkdocs.yml with CuMind navigation"
  end.

(** The body of the download loop of [main]. *)
Definition sync_one (E : env) (headers : headers) (file_info : file_info) : M unit :=
  content <- download_file E file_info headers ;;
  match content with
  | Some text => if str_truthy text then save_doc_file (name file_info) text else ret tt
  | None => ret tt
  end.

Definition main (E : env) : M unit :=
  print "Starting CuMind documentation sync..." ;;
  clean_cumind_docs_dir ;;
  let headers := auth_headers E in
  md_files <- fetch_docs_from_github E ;;
  match md_files with
  | [] => print "No markdown files found in CuMind docs"
  | _ :: _ =>
      print ("Found " +:+ pretty (length md_files) +:+ " markdown files to sync") ;;
      for_each md_files (sync_one E headers) ;;
      update_mkdocs_nav ;;
      print "CuMind documentation sync completed!"
  end.

(** ** Observations

    What one run sees of the remote host, and what the statements below
    read off a world. *)

Definition w_init : world := World None YNull [].

(** The list [fetch_docs_from_github] returns. *)
Definition listed (E : env) : list file_info :=
  match (fetch_docs_from_github E w_init).1 with
  | Ok md_files => md_files
  | Raise _ => []
  end.

(** The value [download_file] returns for a listed file. *)
Definition fetched (E : env) (f : file_info) : option string :=
  match (download_file E f (auth_headers E) w_init).1 with
  | Ok content => content
  | Raise _ => None
  end.

(** The effect of one turn of the download loop on the directory. *)
Definition store_step (E : env) (d : gmap string string) (f : file_info)
  : gmap string string :=
  match fetched E f with
  | Some text =>
      if str_truthy text then <[name f := with_frontmatter (name f) text]> d else d
  | None => d
  end.

(** Whether the loop writes the file: the download returned a non-empty
    text. *)
Definition accepts (E : env) (f : file_info) : bool :=
  match fetched E f with
  | Some text => str_truthy text
  | None => false
  end.

(** The directory one run leaves. *)
Definition synced (E : env) : gmap string string :=
  foldl (store_step E) ∅ (listed E).

(** The sorted document names of a directory (line 87). *)
Definition md_names (d : gmap string string) : list string :=
  sorted (List.filter (fun f => endswith f ".md") (map_to_list d).*1).

(** The top-level [nav] list of a configuration. *)
Definition nav_list (config : yaml) : list yaml :=
  match config with
  | YMap d =>
      match dict_get "nav" d with
      | Some (YList l) => l
      | _ => []
      end
  | _ => []
  end.

(** The top-level entries that carry the section key, and the strings
    (paths) below them. *)
Definition section_entries (config : yaml) : list yaml :=
  List.filter is_cumind_item (nav_list config).

Definition section_strings (config : yaml) : list string :=
  flat_map yaml_strings (section_entries config).

(** An entry that is a single-key mapping keyed by the section name. *)
Definition single_key_section (item : yaml) : bool :=
  match item with
  | YMap [(k, _)] => String.eqb k "CuMind"
  | _ => false
  end.

(** The entry the merge appends, and the test of the entries it keeps. *)
Definition section_entry (cumind_nav : list yaml) : yaml :=
  YMap [("CuMind", YList cumind_nav)].

Definition not_cumind (item : yaml) : bool := negb (is_cumind_item item).

(** A configuration the merge accepts: a mapping whose [nav], when there
    is one, can be iterated. *)
Definition nav_items (config : yaml) : option (list yaml) :=
  match config with
  | YMap d =>
      match dict_get "nav" d with
      | None => Some []
      | Some v => match py_iter v with Ok l => Some l | Raise _ => None end
      end
  | _ => None
  end.

(** What [update_mkdocs_nav] returns and leaves in [mkdocs.yml] when the
    directory holds [d]; what [main] does. *)
Definition nav_outcome (d : gmap string string) (config : yaml) : res unit * yaml :=
  match md_names d with
  | [] => (Ok tt, config)
  | _ :: _ =>
      match merge_nav config (List.map nav_entry (md_names d)) with
      | Ok config' => (Ok tt, config')
      | Raise e => (Raise e, config)
      end
  end.

Definition main_outcome (E : env) (config : yaml) : res unit * yaml :=
  match listed E with
  | [] => (Ok tt, config)
  | _ :: _ => nav_outcome (synced E) config
  end.

(** The environment [E] with the download location [u] out of reach. *)
Definition fail_at (E : env) (u msg : string) : env :=
  Env (GITHUB_TOKEN E) (get_contents E)
      (fun u' h => if String.eqb u' u then Failed msg else get_raw E u' h).

(** ** The title rule in the words of the specification

    "Take filename without extension, replace separator characters with
    spaces, apply title-casing."  [stem] drops the last dot and what
    follows it; [space_separators] maps [_] and [-] to a space. *)

Fixpoint stem (s : string) : string :=
  match s with
  | "" => ""
  | String c s' =>
      if Ascii.eqb c "."%char && negb (contains s' ".") then ""
      else String c (stem s')
  end.

Fixpoint space_separators (s : string) : string :=
  match s with
  | "" => ""
  | String c s' =>
      String (if Ascii.eqb c "_"%char || Ascii.eqb c "-"%char then " "%char else c)
             (space_separators s')
  end.

Definition title_spec (filename : string) : string :=
  title (space_separators (stem filename)).

(** ** A small test bench *)

Module Bench.

Definition ok_text (u text : string) : http string :=
  Answer (Response 200 "OK" u text).

Definition files : list file_info :=
  [FileInfo "b_guide.md" "u/b"; FileInfo "a-intro.md" "u/a";
   FileInfo "logo.png" "u/p"; FileInfo "c.md" "u/c"].

(** Three documents and a picture; [c.md] answers 404. *)
Definition E0 : env :=
  Env None
      (fun u _ => Answer (Response 200 "OK" u files))
      (fun u _ =>
         if String.eqb u "u/a" then ok_text u "# Intro"
         else if String.eqb u "u/b"
              then ok_text u ("---" +:+ nl +:+ "title: B" +:+ nl +:+ "---")
         else if String.eqb u "u/c" then Answer (Response 404 "Not Found" u "")
         else Failed "unreachable").

(** The same host with an empty [c.md] instead of a missing one. *)
Definition E0_empty : env :=
  Env None
      (get_contents E0)
      (fun u h => if String.eqb u "u/c" then ok_text u "" else get_raw E0 u h).

(** A host whose documentation folder lists nothing. *)
Definition E_none : env :=
  Env None (fun u _ => Answer (Response 200 "OK" u [])) (fun _ _ => Failed "unreachable").

(** Two documents: the first is out of reach, the second is empty. *)
Definition E_two : env :=
  Env None
      (fun u _ => Answer (Response 200 "OK" u
                            [FileInfo "a.md" "u/a"; FileInfo "b.md" "u/b"]))
      (fun u _ => if String.eqb u "u/b" then ok_text u "" else Failed "timed out").

Definition stale_entry : yaml :=
  YMap [("CuMind", YList [YMap [("Old", YStr "CuMind/old.md")]])].

Definition multi_key_entry : yaml :=
  YMap [("CuMind", YList [YMap [("Old", YStr "CuMind/old.md")]]);
        ("Extra", YStr "extra.md")].

Definition config_of (nav : list yaml) : yaml :=
  YMap [("site_name", YStr "Docs"); ("nav", YList nav)].

Definition home : yaml := YMap [("Home", YStr "index.md")].

(** A checkout with one stale document and a stale section. *)
Definition w0 : world :=
  World (Some {[ "old.md" := "x" ]}) (config_of [home; stale_entry]) [].

(** A checkout that never had the section. *)
Definition w_plain : world :=
  World None (config_of [home]) [].

(** An empty destination directory next to a stale section. *)
Definition w_stale : world :=
  World (Some ∅) (config_of [home; stale_entry]) [].

(** One stored document and a malformed, two-key section entry. *)
Definition w_multi : world :=
  World (Some {[ "a.md" := "x" ]}) (config_of [multi_key_entry; home]) [].

(** The host of [E0] seen with an empty token, and with a picture that can
    now be downloaded. *)
Definition E0_token : env :=
  Env (Some "")
      (get_contents E0)
      (fun u h => if String.eqb u "u/p" then ok_text u "PNG" else get_raw E0 u h).

(** A listing that names [a.md] twice. *)
Definition E_dup : env :=
  Env None
      (fun u _ => Answer (Response 200 "OK" u
                            [FileInfo "a.md" "u/1"; FileInfo "a.md" "u/2"]))
      (fun u _ => if String.eqb u "u/1" then ok_text u "first"
                  else ok_text u "second").

(** A host that cannot be reached at all. *)
Definition E_down : env :=
  Env None (fun _ _ => Failed "timed out") (fun _ _ => Failed "timed out").

(** A directory with a picture only, next to an empty [mkdocs.yml]. *)
Definition w_pics : world :=
  World (Some {[ "logo.png" := "PNG" ]}) YNull [].

(** One stored document, and a [nav] written as a mapping. *)
Definition w_navmap : world :=
  World (Some {[ "a.md" := "x" ]})
        (YMap [("nav", YMap [("Home", YStr "index.md"); ("About", YStr "about.md")]);
               ("site_name", YStr "Docs")])
        [].

(** A checkout whose section already lists [b.md], from an earlier run. *)
Definition w_b_listed : world :=
  World (Some {[ "b.md" := "x" ]})
        (config_of [home; YMap [("CuMind", YList [YMap [("B", YStr "CuMind/b.md")]])]])
        [].

(** One stored document next to an empty [mkdocs.yml]. *)
Definition w_null : world :=
  World (Some {[ "a.md" := "x" ]}) YNull [].

End Bench.

(** * Properties *)

Import Bench.

Local Open Scope list_scope.

(** ** String methods *)

Lemma app_cons (c : ascii) (s t : string) : String c s +:+ t = String c (s +:+ t).
Proof. reflexivity. Qed.

Lemma app_empty_l (t : string) : "" +:+ t = t.
Proof. reflexivity. Qed.

Lemma app_empty_r (s : string) : s +:+ "" = s.
Proof. induction s as [|c s IH]; [done|]. by rewrite app_cons, IH. Qed.

Lemma app_assoc_str (s t u : string) : (s +:+ t) +:+ u = s +:+ (t +:+ u).
Proof. induction s as [|c s IH]; [done|]. by rewrite !app_cons, IH. Qed.

Lemma startswith_spec (s p : string) :
  startswith s p = true <-> exists t, s = p +:+ t.
Proof.
  revert s. induction p as [|a p IH]; intros s; simpl.
  - split; [intros _; by exists s | reflexivity].
  - destruct s as [|b s]; simpl.
    { split; [discriminate | intros [t Ht]; discriminate]. }
    destruct (Ascii.eqb_spec a b) as [->|Hne].
    + rewrite IH. split; intros [t Ht]; exists t.
      * by rewrite app_cons, Ht.
      * rewrite app_cons in Ht. by injection Ht.
    + split; [done|]. intros [t Ht]. rewrite app_cons in Ht. congruence.
Qed.

Lemma endswith_spec (s suf : string) :
  endswith s suf = true <-> exists p, s = p +:+ suf.
Proof.
  induction s as [|c s IH].
  - destruct suf as [|a suf]; simpl.
    + split; [intros _; by exists "" | reflexivity].
    + split; [discriminate|]. intros [[|b p] Hp]; discriminate.
  - change (endswith (String c s) suf)
      with (if String.eqb (String c s) suf then true else endswith s suf).
    destruct (String.eqb_spec (String c s) suf) as [<-|Hne].
    + split; [intros _; by exists "" | reflexivity].
    + rewrite IH. split.
      * intros [p ->]. by exists (String c p).
      * intros [[|b p] Hp]; [by rewrite app_empty_l in Hp|].
        rewrite app_cons in Hp. injection Hp as -> ->. by exists p.
Qed.

Lemma startswith_app (p t : string) : startswith (p +:+ t) p = true.
Proof. apply startswith_spec. by exists t. Qed.

Example startswith_ex :
  startswith "---x" "---" = true /\ startswith "--" "---" = false.
Proof. split; reflexivity. Qed.

Example endswith_ex :
  endswith "a.md" ".md" = true /\ endswith "a.mdx" ".md" = false
  /\ endswith "md" ".md" = false.
Proof. repeat split; reflexivity. Qed.

Example replace_ex :
  replace ".md" "" "a.md.md" = "a" /\ replace "_" " " "a_b_c" = "a b c"
  /\ replace "aa" "b" "aaa" = "ba" /\ replace "" "-" "ab" = "-a-b-".
Proof. repeat split; reflexivity. Qed.

Example title_ex :
  title "my file name" = "My File Name" /\ title "aBC1de" = "Abc1De".
Proof. split; reflexivity. Qed.

Example sorted_ex : sorted ["b.md"; "B.md"; "a_z.md"; "a-z.md"]
                    = ["B.md"; "a-z.md"; "a_z.md"; "b.md"].
Proof. reflexivity. Qed.

(** ** The local store *)

(** C9.  [clean_cumind_docs_dir] succeeds from every state of the
    destination directory, absent or present with any contents; it leaves
    the directory existing and empty and touches nothing else; running it
    twice in a row is the same as running it once. *)
Theorem clean_cumind_docs_dir_idempotent (w : world) :
  clean_cumind_docs_dir w = (Ok tt, World (Some ∅) (mkdocs_yml w) (stdout w))
  /\ (clean_cumind_docs_dir ;; clean_cumind_docs_dir) w = clean_cumind_docs_dir w.
Proof.
  assert (Hrun : forall v, clean_cumind_docs_dir v
                           = (Ok tt, World (Some ∅) (mkdocs_yml v) (stdout v))).
  { intros [[d|] cfg out]; reflexivity. }
  split; [apply Hrun|].
  unfold bind at 1. rewrite (Hrun w). by rewrite Hrun.
Qed.

Lemma with_frontmatter_startswith (filename content : string) :
  startswith (with_frontmatter filename content) "---" = true.
Proof.
  unfold with_frontmatter.
  destruct (startswith content "---") eqn:Hs; simpl; [exact Hs | reflexivity].
Qed.



(** ** The remote lister *)

(** C7.  [fetch_docs_from_github] never raises and touches neither the
    directory nor the configuration.  When the request finds no answer, or
    the answer carries an error status (400 to 599), it prints one line and
    returns the empty list; otherwise it prints nothing and returns, in the
    order of the listing, exactly the entries whose name ends with [.md]. *)
Theorem fetch_docs_from_github_total (E : env) (w : world) :
  exists md_files out,
    fetch_docs_from_github E w
    = (Ok md_files, World (docs_dir w) (mkdocs_yml w) out)
    /\ match get_contents E tree_url (auth_headers E) with
       | Failed msg =>
           md_files = [] /\ out = stdout w ++ ["Error fetching docs list: " +:+ msg]
       | Answer r =>
           if decide (400 <= status_code r < 600)%Z
           then md_files = []
                /\ exists msg, out = stdout w ++ ["Error fetching docs list: " +:+ msg]
           else out = stdout w
                /\ md_files = List.filter (fun f => endswith (name f) ".md") (body r)
                /\ forall f, In f md_files
                             <-> In f (body r) /\ exists p, name f = p +:+ ".md"
       end.
Proof.
  unfold fetch_docs_from_github, try_except, bind, requests_get.
  destruct (get_contents E tree_url (auth_headers E)) as [msg|r]; simpl.
  - eexists _, _. split; [reflexivity|]. done.
  - unfold raise_for_status.
    destruct (decide (400 <= status_code r < 600)%Z) as [Hs|Hs].
    + destruct ((400 <=? status_code r)%Z && (status_code r <? 500)%Z) eqn:H4;
        simpl.
      { eexists _, _. split; [reflexivity|]. split; [done|]. by eexists. }
      destruct ((500 <=? status_code r)%Z && (status_code r <? 600)%Z) eqn:H5;
        simpl.
      { eexists _, _. split; [reflexivity|]. split; [done|]. by eexists. }
      exfalso. apply andb_false_iff in H4, H5. lia.
    + assert (H4 : (400 <=? status_code r)%Z && (status_code r <? 500)%Z = false).
      { apply andb_false_iff. lia. }
      assert (H5 : (500 <=? status_code r)%Z && (status_code r <? 600)%Z = false).
      { apply andb_false_iff. lia. }
      rewrite H4, H5. simpl. destruct w as [d cfg out]. simpl.
      eexists _, _. split; [reflexivity|]. split; [done|]. split; [done|].
      intros f. rewrite List.filter_In, endswith_spec. done.
Qed.

(** ** Running the script *)

Lemma bind_ok {A B} (c : M A) (k : A -> M B) (w w' : world) (a : A) :
  c w = (Ok a, w') -> bind c k w = k a w'.
Proof. intros H. unfold bind. by rewrite H. Qed.

Lemma bind_raise {A B} (c : M A) (k : A -> M B) (w w' : world) (e : exn) :
  c w = (Raise e, w') -> bind c k w = (Raise e, w').
Proof. intros H. unfold bind. by rewrite H. Qed.

Lemma clean_run (w : world) :
  clean_cumind_docs_dir w = (Ok tt, World (Some ∅) (mkdocs_yml w) (stdout w)).
Proof. destruct w as [[d|] cfg out]; reflexivity. Qed.

(** The console does not influence what a request returns. *)
Lemma raise_for_status_cases {A} (r : response A) (w : world) :
  raise_for_status r w = (Ok tt, w)
  \/ exists msg, raise_for_status r w = (Raise (HTTPError msg), w).
Proof.
  unfold raise_for_status.
  destruct ((400 <=? status_code r)%Z && (status_code r <? 500)%Z);
    [right; by eexists|].
  destruct ((500 <=? status_code r)%Z && (status_code r <? 600)%Z);
    [right; by eexists|].
  by left.
Qed.

Lemma raise_for_status_indep {A} (r : response A) (w w' : world) :
  (raise_for_status r w).1 = (raise_for_status r w').1.
Proof.
  unfold raise_for_status.
  destruct ((400 <=? status_code r)%Z && (status_code r <? 500)%Z); [done|].
  by destruct ((500 <=? status_code r)%Z && (status_code r <? 600)%Z).
Qed.

Lemma fetch_docs_run (E : env) (w : world) :
  exists out,
    fetch_docs_from_github E w
    = (Ok (listed E), World (docs_dir w) (mkdocs_yml w) out).
Proof.
  unfold listed, fetch_docs_from_github, try_except, bind, requests_get.
  destruct (get_contents E tree_url (auth_headers E)) as [msg|r]; simpl.
  { by eexists. }
  pose proof (raise_for_status_indep r w w_init) as Hi.
  destruct (raise_for_status_cases r w) as [Hw|[msg Hw]],
           (raise_for_status_cases r w_init) as [H0|[msg0 H0]];
    rewrite Hw, H0 in *; simpl in *; try discriminate.
  - destruct w; by eexists.
  - by eexists.
Qed.

Lemma download_file_run (E : env) (f : file_info) (w : world) :
  exists out,
    download_file E f (auth_headers E) w
    = (Ok (fetched E f), World (docs_dir w) (mkdocs_yml w) out).
Proof.
  unfold fetched, download_file, try_except, bind, requests_get.
  destruct (get_raw E (download_url f) (auth_headers E)) as [msg|r]; simpl.
  { by eexists. }
  pose proof (raise_for_status_indep r w w_init) as Hi.
  destruct (raise_for_status_cases r w) as [Hw|[msg Hw]],
           (raise_for_status_cases r w_init) as [H0|[msg0 H0]];
    rewrite Hw, H0 in *; simpl in *; try discriminate.
  - destruct w; by eexists.
  - by eexists.
Qed.

Lemma sync_one_run (E : env) (f : file_info) (d : gmap string string)
    (cfg : yaml) (out : list string) :
  exists out',
    sync_one E (auth_headers E) f (World (Some d) cfg out)
    = (Ok tt, World (Some (store_step E d f)) cfg out').
Proof.
  unfold sync_one, store_step.
  destruct (download_file_run E f (World (Some d) cfg out)) as [out1 H1].
  rewrite (bind_ok _ _ _ _ _ H1). simpl.
  destruct (fetched E f) as [text|]; [|by eexists].
  destruct (str_truthy text); [|by eexists].
  unfold save_doc_file, bind, write_file, print. simpl. by eexists.
Qed.

Lemma for_each_sync_run (E : env) (l : list file_info) (d : gmap string string)
    (cfg : yaml) (out : list string) :
  exists out',
    for_each l (sync_one E (auth_headers E)) (World (Some d) cfg out)
    = (Ok tt, World (Some (foldl (store_step E) d l)) cfg out').
Proof.
  revert d out. induction l as [|f l IH]; intros d out; simpl.
  { by eexists. }
  destruct (sync_one_run E f d cfg out) as [out1 H1].
  rewrite (bind_ok _ _ _ _ _ H1). apply IH.
Qed.

Lemma update_mkdocs_nav_run (d : gmap string string) (cfg : yaml)
    (out : list string) :
  exists out',
    update_mkdocs_nav (World (Some d) cfg out)
    = ((nav_outcome d cfg).1, World (Some d) (nav_outcome d cfg).2 out').
Proof.
  unfold update_mkdocs_nav, nav_outcome, bind, yaml_safe_load, os_listdir.
  simpl. fold (md_names d).
  destruct (md_names d) as [|f fs] eqn:Hn; [by eexists|].
  unfold lift_res.
  destruct (merge_nav cfg (List.map nav_entry (f :: fs))) as [cfg'|e];
    simpl; by eexists.
Qed.

Lemma main_run (E : env) (w : world) :
  exists out,
    main E w
    = ((main_outcome E (mkdocs_yml w)).1,
       World (Some (synced E)) (main_outcome E (mkdocs_yml w)).2 out).
Proof.
  unfold main, main_outcome, synced.
  unfold bind at 1. simpl.
  unfold bind at 1. rewrite clean_run. simpl.
  destruct (fetch_docs_run E (World (Some ∅) (mkdocs_yml w)
              (stdout w ++ ["Starting CuMind documentation sync..."])))
    as [out1 H1].
  rewrite (bind_ok _ _ _ _ _ H1). simpl.
  destruct (listed E) as [|f0 fs] eqn:Hl; [by eexists|].
  destruct (for_each_sync_run E (f0 :: fs) ∅ (mkdocs_yml w)
              (out1 ++ ["Found " +:+ pretty (length (f0 :: fs))
                                 +:+ " markdown files to sync"]))
    as [out2 H2].
  remember (foldl (store_step E) ∅ (f0 :: fs)) as d eqn:Hd.
  remember (f0 :: fs) as l eqn:El.
  destruct (update_mkdocs_nav_run d (mkdocs_yml w) out2) as [out3 H3].
  unfold bind at 1. unfold print at 1.
  cbn [docs_dir mkdocs_yml stdout].
  rewrite (bind_ok _ _ _ _ _ H2).
  destruct (nav_outcome d (mkdocs_yml w)) as [[[]|e] cfg'] eqn:Ho.
  - rewrite (bind_ok _ _ _ _ _ H3). unfold print. by eexists.
  - rewrite (bind_raise _ _ _ _ _ H3). by eexists.
Qed.

(** ** Dictionaries and the navigation merge *)

Section dict_facts.

Variables (k : string) (d : dict).

Lemma dict_get_set (v : yaml) : dict_get k (dict_set k v d) = Some v.
Proof.
  induction d as [|[k' v'] d' IH]; simpl.
  - by rewrite String.eqb_refl.
  - destruct (String.eqb k k') eqn:Hk; simpl; rewrite ?String.eqb_refl, ?Hk; done.
Qed.

Lemma dict_set_set (v1 v2 : yaml) :
  dict_set k v2 (dict_set k v1 d) = dict_set k v2 d.
Proof.
  induction d as [|[k' v'] d' IH]; simpl.
  - by rewrite String.eqb_refl.
  - destruct (String.eqb k k') eqn:Hk; simpl; rewrite ?String.eqb_refl, ?Hk;
      [done | by rewrite IH].
Qed.

Lemma dict_contains_get : dict_contains k d = bool_decide (is_Some (dict_get k d)).
Proof.
  induction d as [|[k' v'] d' IH]; simpl.
  - reflexivity.
  - destruct (String.eqb k k'); simpl; [reflexivity | exact IH].
Qed.

Lemma dict_contains_In :
  dict_contains k d = true <-> exists v, In (k, v) d.
Proof.
  unfold dict_contains. rewrite existsb_exists. split.
  - intros [[k' v] [Hin Hk]]. simpl in Hk. apply String.eqb_eq in Hk as ->.
    by exists v.
  - intros [v Hin]. exists (k, v). split; [done|]. apply String.eqb_refl.
Qed.

End dict_facts.

Lemma merge_nav_ok (d : dict) (items cumind_nav : list yaml) :
  nav_items (YMap d) = Some items ->
  merge_nav (YMap d) cumind_nav
  = Ok (YMap (dict_set "nav"
                (YList (List.filter not_cumind items ++ [section_entry cumind_nav]))
                d)).
Proof.
  unfold nav_items, merge_nav. simpl. rewrite dict_contains_get.
  destruct (dict_get "nav" d) as [v|] eqn:Hg.
  - rewrite bool_decide_eq_true_2 by by eexists. simpl. rewrite Hg. simpl.
    destruct (py_iter v) as [l|e]; [|done]. intros [= ->]. simpl.
    rewrite dict_get_set. simpl. by rewrite dict_set_set.
  - rewrite bool_decide_eq_false_2 by by intros [? ?]. intros [= <-]. simpl.
    rewrite dict_get_set. simpl. rewrite dict_set_set, dict_get_set. simpl.
    by rewrite dict_set_set.
Qed.

Lemma merge_nav_raise (config : yaml) (cumind_nav : list yaml) :
  nav_items config = None -> exists e, merge_nav config cumind_nav = Raise e.
Proof.
  unfold nav_items, merge_nav.
  destruct config as [| b | z | s | l | d]; simpl; try by eexists.
  - intros _. destruct (contains s "nav"); simpl; by eexists.
  - intros _.
    destruct (existsb _ l); simpl; by eexists.
  - rewrite dict_contains_get.
    destruct (dict_get "nav" d) as [v|] eqn:Hg; [|done].
    rewrite bool_decide_eq_true_2 by by eexists. simpl. rewrite Hg. simpl.
    destruct (py_iter v) as [l|e]; [done|]. intros _. by eexists.
Qed.

Lemma nav_list_set (d : dict) (l : list yaml) :
  nav_list (YMap (dict_set "nav" (YList l) d)) = l.
Proof. unfold nav_list. by rewrite dict_get_set. Qed.

Lemma nav_items_set (d : dict) (l : list yaml) :
  nav_items (YMap (dict_set "nav" (YList l) d)) = Some l.
Proof. unfold nav_items. by rewrite dict_get_set. Qed.

Lemma filter_not_cumind_twice (l : list yaml) :
  List.filter not_cumind (List.filter not_cumind l) = List.filter not_cumind l.
Proof.
  induction l as [|x l IH]; simpl; [done|].
  destruct (not_cumind x) eqn:Hx; simpl; rewrite ?Hx, IH; done.
Qed.

Lemma filter_cumind_of_kept (l : list yaml) :
  List.filter is_cumind_item (List.filter not_cumind l) = [].
Proof.
  induction l as [|x l IH]; simpl; [done|]. unfold not_cumind at 1.
  destruct (is_cumind_item x) eqn:Hx; simpl; rewrite ?Hx; done.
Qed.

Lemma section_entries_merged (d : dict) (items cumind_nav : list yaml) :
  section_entries
    (YMap (dict_set "nav"
             (YList (List.filter not_cumind items ++ [section_entry cumind_nav])) d))
  = [section_entry cumind_nav].
Proof.
  unfold section_entries. rewrite nav_list_set, List.filter_app.
  by rewrite filter_cumind_of_kept.
Qed.

(** Merging again with the same fresh list changes nothing. *)
Lemma merge_nav_again (d : dict) (items cumind_nav : list yaml) :
  let merged :=
    YMap (dict_set "nav"
            (YList (List.filter not_cumind items ++ [section_entry cumind_nav])) d) in
  merge_nav merged cumind_nav = Ok merged.
Proof.
  intros merged. unfold merged.
  rewrite (merge_nav_ok _ _ _ (nav_items_set _ _)).
  rewrite dict_set_set, List.filter_app, filter_not_cumind_twice. simpl.
  by rewrite app_nil_r.
Qed.

Lemma yaml_strings_nav_entries (files : list string) :
  flat_map yaml_strings (List.map nav_entry files)
  = List.map (fun f => "CuMind/" +:+ f) files.
Proof. induction files as [|f fs IH]; simpl; [done|]. by rewrite IH. Qed.

(** ** The sorted document names of a directory *)

Section md_names_facts.

Variable d : gmap string string.

Lemma md_names_Permutation :
  md_names d ≡ₚ List.filter (fun f => endswith f ".md") (map_to_list d).*1.
Proof. apply merge_sort_Permutation. Qed.

Lemma md_names_In (f : string) :
  In f (md_names d) <-> is_Some (d !! f) /\ endswith f ".md" = true.
Proof.
  rewrite <- list_elem_of_In, md_names_Permutation, list_elem_of_In.
  rewrite List.filter_In, <- list_elem_of_In, list_elem_of_fmap.
  split.
  - intros [[[k v] [-> Hkv]] He]. split; [|done].
    apply elem_of_map_to_list in Hkv. by eexists.
  - intros [[v Hv] He]. split; [|done]. exists (f, v). split; [done|].
    by apply elem_of_map_to_list.
Qed.

Lemma md_names_NoDup : NoDup (md_names d).
Proof.
  rewrite md_names_Permutation. apply NoDup_ListNoDup, List.NoDup_filter.
  apply NoDup_ListNoDup, NoDup_fst_map_to_list.
Qed.

Lemma md_names_sorted : StronglySorted String.le (md_names d).
Proof. apply (StronglySorted_merge_sort _). Qed.

Lemma md_names_nonempty (f : string) :
  is_Some (d !! f) -> endswith f ".md" = true -> md_names d <> [].
Proof.
  intros Hf He Hn. assert (Hin : In f (md_names d)) by by apply md_names_In.
  rewrite Hn in Hin. destruct Hin.
Qed.

(** When every stored name is a document name, the sorted names are the
    names of the directory. *)
Lemma md_names_all :
  (forall f, is_Some (d !! f) -> endswith f ".md" = true) ->
  md_names d ≡ₚ (map_to_list d).*1.
Proof.
  intros Hall. rewrite md_names_Permutation.
  assert (Hf : forall l : list string,
             (forall f, In f l -> endswith f ".md" = true) ->
             List.filter (fun f => endswith f ".md") l = l).
  { induction l as [|x l IH]; simpl; intros Hl; [done|].
    rewrite (Hl x) by by left. f_equal. apply IH. intros f Hin. apply Hl. by right. }
  rewrite Hf; [done|]. intros f Hin. apply Hall.
  apply list_elem_of_In, list_elem_of_fmap in Hin as [[k v] [-> Hkv]].
  apply elem_of_map_to_list in Hkv. by eexists.
Qed.

End md_names_facts.

Lemma md_names_empty : md_names ∅ = [].
Proof. reflexivity. Qed.

Lemma not_cumind_spec (item : yaml) :
  not_cumind item = false <-> exists m v, item = YMap m /\ In ("CuMind", v) m.
Proof.
  unfold not_cumind, is_cumind_item. rewrite negb_false_iff.
  destruct item as [| b | z | s | l | m];
    try (split; [discriminate | intros (m' & v & Hm & _); discriminate]).
  rewrite dict_contains_In. split.
  - intros [v Hv]. by exists m, v.
  - intros (m' & v & [= <-] & Hv). by exists v.
Qed.

(** The merge on a well-formed configuration, as [update_mkdocs_nav] runs
    it. *)
Lemma update_mkdocs_nav_merge (w : world) (d : gmap string string)
    (cfg : dict) (items : list yaml) :
  docs_dir w = Some d ->
  md_names d <> [] ->
  mkdocs_yml w = YMap cfg ->
  nav_items (YMap cfg) = Some items ->
  exists out,
    update_mkdocs_nav w
    = (Ok tt,
       World (Some d)
             (YMap (dict_set "nav"
                      (YList (List.filter not_cumind items
                              ++ [section_entry (List.map nav_entry (md_names d))]))
                      cfg))
             out).
Proof.
  intros Hd Hn Hc Hi. destruct w as [dd c out]. simpl in *. subst dd c.
  destruct (update_mkdocs_nav_run d (YMap cfg) out) as [out' Hrun].
  exists out'. rewrite Hrun. unfold nav_outcome.
  destruct (md_names d) as [|f fs] eqn:Hm; [done|].
  by rewrite (merge_nav_ok _ _ _ Hi).
Qed.

Lemma nav_items_list (cfg : dict) (items : list yaml) :
  dict_get "nav" cfg = Some (YList items) -> nav_items (YMap cfg) = Some items.
Proof. unfold nav_items. by intros ->. Qed.

(** ** The navigation merger *)

(** C2, as stated, fails: with one stored document, an entry with the two
    keys [CuMind] and [Extra] is not a single-key mapping keyed by the
    section name, and the merge removes it all the same. *)
Lemma multi_key_entry_removed :
  single_key_section multi_key_entry = false
  /\ In multi_key_entry (nav_list (mkdocs_yml w_multi))
  /\ (update_mkdocs_nav w_multi).1 = Ok tt
  /\ ~ In multi_key_entry (nav_list (mkdocs_yml (update_mkdocs_nav w_multi).2)).
Proof.
  split; [reflexivity|]. split; [by left|]. split; [by vm_compute|].
  vm_compute. intros [H|[H|[]]]; discriminate H.
Qed.

(** C2, amended.  When the directory holds at least one document and the
    configuration is a mapping with a [nav] list, the merge succeeds and the
    new [nav] list is the old one, in order, without the entries that are
    mappings containing the key [CuMind] (whatever other keys they have),
    followed by the new section entry.  An entry is removed exactly when it
    is such a mapping; entries that are not mappings, and mappings without
    the key, stay. *)
Theorem update_mkdocs_nav_removes_keyed_mappings (w : world)
    (d : gmap string string) (cfg : dict) (items : list yaml) :
  docs_dir w = Some d ->
  (exists f, is_Some (d !! f) /\ endswith f ".md" = true) ->
  mkdocs_yml w = YMap cfg ->
  dict_get "nav" cfg = Some (YList items) ->
  exists w',
    update_mkdocs_nav w = (Ok tt, w')
    /\ docs_dir w' = Some d
    /\ nav_list (mkdocs_yml w')
       = List.filter not_cumind items
         ++ [YMap [("CuMind", YList (List.map nav_entry (md_names d)))]]
    /\ forall item,
         not_cumind item = false
         <-> exists m v, item = YMap m /\ In ("CuMind", v) m.
Proof.
  intros Hd (f & Hf & He) Hc Hnav.
  destruct (update_mkdocs_nav_merge w d cfg items Hd
              (md_names_nonempty d f Hf He) Hc (nav_items_list _ _ Hnav))
    as [out Hrun].
  eexists. split; [exact Hrun|]. split; [done|]. split.
  - cbn [mkdocs_yml]. by rewrite nav_list_set.
  - apply not_cumind_spec.
Qed.

Lemma update_mkdocs_nav_removes_keyed_mappings_witness :
  exists w',
    update_mkdocs_nav w_multi = (Ok tt, w')
    /\ nav_list (mkdocs_yml w')
       = [home; YMap [("CuMind", YList [YMap [("A", YStr "CuMind/a.md")]])]].
Proof.
  destruct (update_mkdocs_nav_removes_keyed_mappings w_multi
              {[ "a.md" := "x" ]}
              [("site_name", YStr "Docs"); ("nav", YList [multi_key_entry; home])]
              [multi_key_entry; home] eq_refl)
    as (w' & Hrun & _ & Hnav & _).
  - exists "a.md". split; [by eexists | reflexivity].
  - reflexivity.
  - reflexivity.
  - exists w'. split; [exact Hrun|]. rewrite Hnav. reflexivity.
Defined.

(** C8, as stated, fails: against an empty directory the merge returns
    without touching the configuration, and the path of the stale section
    entry is still there. *)
Lemma stale_entry_survives_empty_store :
  docs_dir w_stale = Some ∅
  /\ In "CuMind/old.md" (section_strings (mkdocs_yml w_stale))
  /\ (update_mkdocs_nav w_stale).1 = Ok tt
  /\ In "CuMind/old.md" (section_strings (mkdocs_yml (update_mkdocs_nav w_stale).2)).
Proof.
  split; [reflexivity|]. split; [by left|]. split; [reflexivity|]. by left.
Qed.

(** C8, amended.  When the directory holds at least one document and the
    configuration is a mapping with a [nav] list, the merge leaves exactly
    one entry with the section key, the fresh one; the strings below the
    section are exactly the fresh paths [CuMind/<file>]; a path of a stale
    section entry that is not a fresh path is gone. *)
Theorem update_mkdocs_nav_replaces_stale_section (w : world)
    (d : gmap string string) (cfg : dict) (items : list yaml) (p : string) :
  docs_dir w = Some d ->
  (exists f, is_Some (d !! f) /\ endswith f ".md" = true) ->
  mkdocs_yml w = YMap cfg ->
  dict_get "nav" cfg = Some (YList items) ->
  In p (section_strings (mkdocs_yml w)) ->
  ~ In p (List.map (fun f => "CuMind/" +:+ f) (md_names d)) ->
  exists w',
    update_mkdocs_nav w = (Ok tt, w')
    /\ section_entries (mkdocs_yml w')
       = [YMap [("CuMind", YList (List.map nav_entry (md_names d)))]]
    /\ section_strings (mkdocs_yml w')
       = List.map (fun f => "CuMind/" +:+ f) (md_names d)
    /\ ~ In p (section_strings (mkdocs_yml w')).
Proof.
  intros Hd (f & Hf & He) Hc Hnav _ Hp.
  destruct (update_mkdocs_nav_merge w d cfg items Hd
              (md_names_nonempty d f Hf He) Hc (nav_items_list _ _ Hnav))
    as [out Hrun].
  assert (Hs : section_strings
                 (YMap (dict_set "nav"
                          (YList (List.filter not_cumind items
                                  ++ [section_entry (List.map nav_entry (md_names d))]))
                          cfg))
               = List.map (fun f => "CuMind/" +:+ f) (md_names d)).
  { unfold section_strings. rewrite section_entries_merged. simpl.
    rewrite !app_nil_r. apply yaml_strings_nav_entries. }
  eexists. split; [exact Hrun|]. cbn [mkdocs_yml]. split; [|split].
  - apply section_entries_merged.
  - exact Hs.
  - by rewrite Hs.
Qed.

Lemma update_mkdocs_nav_replaces_stale_section_witness :
  exists w',
    update_mkdocs_nav (World (Some {[ "a.md" := "x" ]}) (mkdocs_yml w_stale) [])
    = (Ok tt, w')
    /\ section_strings (mkdocs_yml w') = ["CuMind/a.md"]
    /\ ~ In "CuMind/old.md" (section_strings (mkdocs_yml w')).
Proof.
  destruct (update_mkdocs_nav_replaces_stale_section
              (World (Some {[ "a.md" := "x" ]}) (mkdocs_yml w_stale) [])
              {[ "a.md" := "x" ]}
              [("site_name", YStr "Docs"); ("nav", YList [home; stale_entry])]
              [home; stale_entry] "CuMind/old.md" eq_refl)
    as (w' & Hrun & _ & Hs & Hp).
  - exists "a.md". split; [by eexists | reflexivity].
  - reflexivity.
  - reflexivity.
  - by left.
  - vm_compute. intros [H|[]]. discriminate H.
  - exists w'. split; [exact Hrun|]. split; [|exact Hp]. rewrite Hs. reflexivity.
Defined.

(** ** What the download loop stores *)

Lemma str_truthy_spec (s : string) : str_truthy s = true <-> s <> "".
Proof.
  unfold str_truthy. destruct (String.eqb_spec s "") as [->|Hne]; simpl.
  - split; [discriminate | done].
  - done.
Qed.

Section store_facts.

Variable E : env.

Lemma store_step_rejected (d : gmap string string) (f : file_info) :
  accepts E f = false -> store_step E d f = d.
Proof.
  unfold accepts, store_step. destruct (fetched E f) as [t|]; [|done].
  by intros ->.
Qed.

Lemma store_step_accepted (d : gmap string string) (f : file_info) (t : string) :
  fetched E f = Some t -> t <> "" ->
  store_step E d f = <[name f := with_frontmatter (name f) t]> d.
Proof.
  intros Hf Ht. unfold store_step. rewrite Hf.
  by apply str_truthy_spec in Ht as ->.
Qed.

Lemma accepts_spec (f : file_info) :
  accepts E f = true <-> exists t, fetched E f = Some t /\ t <> "".
Proof.
  unfold accepts. destruct (fetched E f) as [t|].
  - rewrite str_truthy_spec. split; [intros Ht; by exists t | by intros (? & [= <-] & ?)].
  - split; [discriminate | by intros (? & ? & _)].
Qed.

Lemma store_step_lookup_ne (d : gmap string string) (f : file_info) (k : string) :
  name f <> k -> store_step E d f !! k = d !! k.
Proof.
  intros Hne. unfold store_step. destruct (fetched E f) as [t|]; [|done].
  destruct (str_truthy t); [|done]. by rewrite lookup_insert_ne.
Qed.

Lemma foldl_store_lookup_old (l : list file_info) (d : gmap string string)
    (k : string) :
  (forall f, In f l -> name f = k -> accepts E f = false) ->
  foldl (store_step E) d l !! k = d !! k.
Proof.
  revert d. induction l as [|g l IH]; intros d Hl; simpl; [done|].
  rewrite IH by (intros f Hin; apply Hl; by right).
  destruct (decide (name g = k)) as [Hk|Hk].
  - rewrite store_step_rejected; [done|]. apply Hl; [by left | done].
  - by apply store_step_lookup_ne.
Qed.

Lemma foldl_store_dom (l : list file_info) (d : gmap string string) (k : string) :
  is_Some (foldl (store_step E) d l !! k) ->
  is_Some (d !! k) \/ exists f, In f l /\ name f = k /\ accepts E f = true.
Proof.
  revert d. induction l as [|g l IH]; intros d; simpl; [by left|].
  intros Hk. destruct (IH _ Hk) as [Hs|(f & Hin & Hn & Ha)].
  - destruct (accepts E g) eqn:Hg.
    + destruct (decide (name g = k)) as [Hgk|Hgk].
      * right. exists g. split; [by left | done].
      * left. by rewrite store_step_lookup_ne in Hs.
    + left. by rewrite store_step_rejected in Hs.
  - right. exists f. split; [by right | done].
Qed.

Lemma foldl_store_mono (l : list file_info) (d : gmap string string) (k : string) :
  is_Some (d !! k) -> is_Some (foldl (store_step E) d l !! k).
Proof.
  revert d. induction l as [|g l IH]; intros d Hk; simpl; [done|].
  apply IH. unfold store_step. destruct (fetched E g) as [t|]; [|done].
  destruct (str_truthy t); [|done].
  apply lookup_insert_is_Some. destruct (decide (name g = k)); auto.
Qed.

Lemma foldl_store_is_Some (l : list file_info) (d : gmap string string)
    (f : file_info) :
  In f l -> accepts E f = true ->
  is_Some (foldl (store_step E) d l !! name f).
Proof.
  revert d. induction l as [|g l IH]; intros d Hin Ha; [destruct Hin|].
  simpl. destruct Hin as [Hg|Hin].
  - subst g. apply foldl_store_mono.
    apply accepts_spec in Ha as (t & Hf & Ht).
    rewrite (store_step_accepted _ _ _ Hf Ht), lookup_insert_eq. by eexists.
  - by apply IH.
Qed.

Lemma foldl_store_lookup_nodup (l : list file_info) (d : gmap string string)
    (f : file_info) (t : string) :
  NoDup (List.map name l) -> In f l -> fetched E f = Some t -> t <> "" ->
  foldl (store_step E) d l !! name f = Some (with_frontmatter (name f) t).
Proof.
  revert d. induction l as [|g l IH]; intros d Hnd Hin Hf Ht; [destruct Hin|].
  simpl in Hnd. apply NoDup_cons in Hnd as [Hg Hnd]. simpl.
  destruct Hin as [->|Hin].
  - rewrite foldl_store_lookup_old.
    + by rewrite (store_step_accepted _ _ _ Hf Ht), lookup_insert_eq.
    + intros f' Hin' Hn. exfalso. apply Hg. rewrite <- Hn.
      apply list_elem_of_In. by apply in_map.
  - by apply IH.
Qed.

Lemma foldl_store_size (l : list file_info) (d : gmap string string) :
  NoDup (List.map name l) ->
  (forall f, In f l -> d !! name f = None) ->
  size (foldl (store_step E) d l) = size d + length (List.filter (accepts E) l).
Proof.
  revert d. induction l as [|g l IH]; intros d Hnd Hfresh; simpl; [lia|].
  simpl in Hnd. apply NoDup_cons in Hnd as [Hg Hnd].
  assert (Hrest : forall f, In f l -> name f <> name g).
  { intros f Hin Hn. apply Hg. rewrite <- Hn. apply list_elem_of_In. by apply in_map. }
  rewrite IH; [|done|].
  - destruct (accepts E g) eqn:Ha; simpl.
    + apply accepts_spec in Ha as (t & Hf & Ht).
      rewrite (store_step_accepted _ _ _ Hf Ht).
      rewrite map_size_insert_None by (apply Hfresh; by left). lia.
    + by rewrite store_step_rejected.
  - intros f Hin. rewrite store_step_lookup_ne by (intros Hn; by apply (Hrest f)).
    apply Hfresh. by right.
Qed.

Lemma listed_md (f : file_info) :
  In f (listed E) -> endswith (name f) ".md" = true.
Proof.
  unfold listed, fetch_docs_from_github, try_except, bind, requests_get.
  destruct (get_contents E tree_url (auth_headers E)) as [msg|r]; simpl; [done|].
  destruct (raise_for_status_cases r w_init) as [H0|[msg0 H0]]; rewrite H0; simpl.
  - intros Hin. by apply List.filter_In in Hin as [_ ?].
  - done.
Qed.

Lemma synced_md (k : string) :
  is_Some (synced E !! k) -> endswith k ".md" = true.
Proof.
  intros Hk. apply foldl_store_dom in Hk as [[? Hk]|(f & Hin & <- & _)].
  - by rewrite lookup_empty in Hk.
  - by apply listed_md.
Qed.

Lemma synced_nonempty (f : file_info) :
  In f (listed E) -> accepts E f = true -> md_names (synced E) <> [].
Proof.
  intros Hin Ha. apply (md_names_nonempty _ (name f)).
  - by apply foldl_store_is_Some.
  - by apply listed_md.
Qed.

End store_facts.

(** ** The orchestrator *)

Lemma main_outcome_ok (E : env) (cfg : dict) (items : list yaml) (f : file_info) :
  In f (listed E) -> accepts E f = true ->
  nav_items (YMap cfg) = Some items ->
  main_outcome E (YMap cfg)
  = (Ok tt,
     YMap (dict_set "nav"
             (YList (List.filter not_cumind items
                     ++ [section_entry (List.map nav_entry (md_names (synced E)))]))
             cfg)).
Proof.
  intros Hin Ha Hi. unfold main_outcome, nav_outcome.
  destruct (listed E) as [|f0 fs] eqn:Hl; [destruct Hin|].
  pose proof (synced_nonempty E f) as Hn. rewrite Hl in Hn.
  specialize (Hn Hin Ha).
  destruct (md_names (synced E)) as [|n ns] eqn:Hm; [done|].
  by rewrite (merge_nav_ok _ _ _ Hi).
Qed.

Lemma main_outcome_again (E : env) (cfg : dict) (items : list yaml)
    (f : file_info) :
  In f (listed E) -> accepts E f = true ->
  let merged :=
    YMap (dict_set "nav"
            (YList (List.filter not_cumind items
                    ++ [section_entry (List.map nav_entry (md_names (synced E)))]))
            cfg) in
  main_outcome E merged = (Ok tt, merged).
Proof.
  intros Hin Ha merged. unfold merged.
  rewrite (main_outcome_ok E _ _ f Hin Ha (nav_items_set _ _)).
  rewrite dict_set_set, List.filter_app, filter_not_cumind_twice. simpl.
  by rewrite app_nil_r.
Qed.

(** With a stored document and a configuration the merge cannot handle
    (not a mapping, or a [nav] that cannot be iterated, such as an empty
    [nav:] key), the run ends with the exception of the merge; the
    directory is synced and [mkdocs.yml] untouched. *)
Lemma main_bad_config (E : env) (w : world) (f : file_info) :
  In f (listed E) -> accepts E f = true ->
  nav_items (mkdocs_yml w) = None ->
  exists e out,
    main E w = (Raise e, World (Some (synced E)) (mkdocs_yml w) out).
Proof.
  intros Hin Ha Hi. destruct (main_run E w) as [out Hrun].
  unfold main_outcome, nav_outcome in Hrun.
  pose proof (synced_nonempty E f Hin Ha) as Hn.
  destruct (listed E) as [|f0 fs] eqn:Hl; [destruct Hin|].
  destruct (md_names (synced E)) as [|n ns] eqn:Hm; [done|].
  destruct (merge_nav_raise (mkdocs_yml w) (List.map nav_entry (n :: ns)) Hi)
    as [e He].
  rewrite He in Hrun. by exists e, out.
Qed.

Lemma nav_items_mapping (config : yaml) (items : list yaml) :
  nav_items config = Some items -> exists cfg, config = YMap cfg.
Proof. destruct config; try discriminate. by eexists. Qed.

(** C5.  When the listing returns no document (the folder has none, or the
    request failed), the run ends normally with the destination directory
    existing and empty and with [mkdocs.yml] exactly as it was. *)
Theorem main_empty_listing (E : env) (w : world) :
  listed E = [] ->
  exists out,
    main E w = (Ok tt, World (Some ∅) (mkdocs_yml w) out).
Proof.
  intros Hl. destruct (main_run E w) as [out Hrun]. exists out.
  rewrite Hrun. unfold main_outcome, synced. by rewrite Hl.
Qed.

Lemma main_empty_listing_witness :
  listed E_none = []
  /\ exists out, main E_none w0 = (Ok tt, World (Some ∅) (mkdocs_yml w0) out).
Proof.
  split; [reflexivity|]. apply (main_empty_listing E_none w0). reflexivity.
Defined.

(** C1, as stated, fails: a remote folder that lists nothing is an
    unchanged remote document set, both runs end normally with the same
    (empty) directory, and the [nav] list has no section entry at all. *)
Lemma sync_twice_empty_remote_no_section :
  (main E_none w_plain).1 = Ok tt
  /\ (main E_none (main E_none w_plain).2).1 = Ok tt
  /\ docs_dir (main E_none (main E_none w_plain).2).2
     = docs_dir (main E_none w_plain).2
  /\ section_entries (mkdocs_yml (main E_none (main E_none w_plain).2).2) = [].
Proof. repeat split; reflexivity. Qed.

(** C1, amended.  When at least one listed document downloads with a
    non-empty text and the configuration is a mapping whose [nav] is absent
    or can be iterated, two runs in a row against the same remote both end
    normally; the second leaves the directory and [mkdocs.yml] exactly as
    the first left them, and the [nav] list has exactly one entry with the
    key [CuMind]. *)
Theorem main_twice_idempotent (E : env) (w : world) (f : file_info)
    (text : string) (items : list yaml) :
  In f (listed E) ->
  fetched E f = Some text ->
  text <> "" ->
  nav_items (mkdocs_yml w) = Some items ->
  exists w1 w2,
    main E w = (Ok tt, w1)
    /\ main E w1 = (Ok tt, w2)
    /\ docs_dir w2 = docs_dir w1
    /\ mkdocs_yml w2 = mkdocs_yml w1
    /\ section_entries (mkdocs_yml w2)
       = [YMap [("CuMind", YList (List.map nav_entry (md_names (synced E))))]].
Proof.
  intros Hin Hf Ht Hi.
  assert (Ha : accepts E f = true) by (apply accepts_spec; by exists text).
  destruct (nav_items_mapping _ _ Hi) as [cfg Hc]. rewrite Hc in Hi.
  destruct (main_run E w) as [out1 H1].
  rewrite Hc, (main_outcome_ok E cfg items f Hin Ha Hi) in H1.
  cbn [fst snd] in H1.
  eexists. rewrite H1.
  destruct (main_run E (World (Some (synced E))
              (YMap (dict_set "nav"
                 (YList (List.filter not_cumind items
                         ++ [section_entry (List.map nav_entry (md_names (synced E)))]))
                 cfg)) out1)) as [out2 H2].
  cbn [mkdocs_yml] in H2.
  rewrite (main_outcome_again E cfg items f Hin Ha) in H2.
  cbn [fst snd] in H2.
  eexists. rewrite H2.
  split; [reflexivity|]. split; [reflexivity|]. split; [done|]. split; [done|].
  cbn [mkdocs_yml]. apply section_entries_merged.
Qed.

Lemma main_twice_idempotent_witness :
  exists w1 w2,
    main E0 w0 = (Ok tt, w1)
    /\ main E0 w1 = (Ok tt, w2)
    /\ docs_dir w2 = docs_dir w1
    /\ mkdocs_yml w2 = mkdocs_yml w1
    /\ section_entries (mkdocs_yml w2)
       = [YMap [("CuMind", YList [YMap [("A Intro", YStr "CuMind/a-intro.md")];
                                  YMap [("B Guide", YStr "CuMind/b_guide.md")]])]].
Proof.
  destruct (main_twice_idempotent E0 w0 (FileInfo "a-intro.md" "u/a") "# Intro"
              [home; stale_entry])
    as (w1 & w2 & H1 & H2 & Hd & Hc & Hs).
  - right. by left.
  - reflexivity.
  - discriminate.
  - reflexivity.
  - exists w1, w2. repeat (split; [assumption|]). rewrite Hs. reflexivity.
Defined.

(** ** One failed download among several *)

Lemma filter_all {A} (p : A -> bool) (l : list A) :
  (forall x, In x l -> p x = true) -> List.filter p l = l.
Proof.
  induction l as [|x l IH]; simpl; intros Hl; [done|].
  rewrite (Hl x) by by left. f_equal. apply IH. intros y Hy. apply Hl. by right.
Qed.

Lemma NoDup_map_eq {A B} (g : A -> B) (l : list A) (x y : A) :
  NoDup (List.map g l) -> In x l -> In y l -> g x = g y -> x = y.
Proof.
  induction l as [|a l IH]; simpl; intros Hnd Hx Hy Hg; [destruct Hx|].
  apply NoDup_cons in Hnd as [Ha Hnd].
  destruct Hx as [->|Hx], Hy as [->|Hy]; [done| | |by apply IH].
  - exfalso. apply Ha. rewrite Hg. apply list_elem_of_In. by apply in_map.
  - exfalso. apply Ha. rewrite <- Hg. apply list_elem_of_In. by apply in_map.
Qed.

Lemma filter_all_but_one {A} (p : A -> bool) (l : list A) (bad : A) :
  In bad l ->
  p bad = false ->
  (forall x y, In x l -> In y l -> p x = false -> p y = false -> x = y) ->
  NoDup l ->
  length (List.filter p l) = length l - 1.
Proof.
  intros Hin Hb Huniq Hnd.
  apply in_split in Hin as (l1 & l2 & ->).
  assert (Hok : forall x, In x (l1 ++ l2) -> p x = true).
  { intros x Hx. destruct (p x) eqn:Hp; [done|]. exfalso.
    assert (x = bad) as ->.
    { apply Huniq; try done.
      - apply in_app_iff. apply in_app_iff in Hx as [?|?]; [by left | right; by right].
      - apply in_app_iff. right. by left. }
    apply NoDup_app in Hnd as (_ & Hdisj & Hnd2).
    apply NoDup_cons in Hnd2 as [Hnot _].
    apply in_app_iff in Hx as [Hx|Hx].
    - apply (Hdisj bad); [by apply list_elem_of_In | by left].
    - apply Hnot. by apply list_elem_of_In. }
  rewrite List.filter_app. simpl. rewrite Hb, <- List.filter_app, (filter_all _ _ Hok).
  rewrite !length_app. simpl. lia.
Qed.

(** C6, as stated, fails: of two listed documents the first cannot be
    downloaded and the second downloads as an empty text; the run ends
    normally and the directory holds no file, not one. *)
Lemma one_failure_with_empty_sibling :
  listed E_two = [FileInfo "a.md" "u/a"; FileInfo "b.md" "u/b"]
  /\ fetched E_two (FileInfo "a.md" "u/a") = None
  /\ fetched E_two (FileInfo "b.md" "u/b") = Some ""
  /\ (main E_two w_plain).1 = Ok tt
  /\ docs_dir (main E_two w_plain).2 = Some ∅.
Proof. repeat split; reflexivity. Qed.

(** C6, amended.  Let the listing hold at least two documents with
    pairwise distinct names, let the download of exactly one of them fail
    and every other download return a non-empty text, and let the
    configuration be a mapping whose [nav] is absent or can be iterated.
    Then the run ends normally; the directory holds one file per
    successfully fetched document, one fewer than were listed, each with
    the text [save_doc_file] writes for it; and the single section entry of
    the [nav] list holds one [{title: path}] entry per stored file, in
    ascending order of the file names. *)
Theorem main_one_download_fails (E : env) (w : world) (bad : file_info)
    (items : list yaml) :
  NoDup (List.map name (listed E)) ->
  2 <= length (listed E) ->
  In bad (listed E) ->
  fetched E bad = None ->
  (forall f, In f (listed E) -> f <> bad ->
             exists t, fetched E f = Some t /\ t <> "") ->
  nav_items (mkdocs_yml w) = Some items ->
  exists w' d files,
    main E w = (Ok tt, w')
    /\ docs_dir w' = Some d
    /\ size d = length (listed E) - 1
    /\ d !! name bad = None
    /\ (forall f, In f (listed E) -> f <> bad ->
                  exists t, fetched E f = Some t
                            /\ d !! name f = Some (with_frontmatter (name f) t))
    /\ section_entries (mkdocs_yml w')
       = [YMap [("CuMind", YList (List.map nav_entry files))]]
    /\ files ≡ₚ (map_to_list d).*1
    /\ StronglySorted String.le files.
Proof.
  intros Hnd Hlen Hbad Hfail Hothers Hi.
  assert (Hrej : accepts E bad = false) by (unfold accepts; by rewrite Hfail).
  assert (Hacc : forall f, In f (listed E) -> f <> bad -> accepts E f = true).
  { intros f Hin Hne. apply accepts_spec. by apply Hothers. }
  assert (Hnd' : NoDup (listed E)) by (by apply (NoDup_fmap_1 name)).
  assert (Hone : exists f, In f (listed E) /\ f <> bad).
  { destruct (listed E) as [|a [|b l]] eqn:Hl; simpl in Hlen; try lia.
    destruct (decide (a = bad)) as [->|Ha].
    - exists b. split; [right; by left|]. intros ->.
      apply NoDup_cons in Hnd' as [Hn _]. apply Hn. by left.
    - exists a. split; [by left | done]. }
  destruct Hone as (f1 & Hin1 & Hne1).
  destruct (nav_items_mapping _ _ Hi) as [cfg Hc]. rewrite Hc in Hi.
  destruct (main_run E w) as [out Hrun].
  rewrite Hc, (main_outcome_ok E cfg items f1 Hin1 (Hacc _ Hin1 Hne1) Hi) in Hrun.
  cbn [fst snd] in Hrun.
  eexists _, (synced E), (md_names (synced E)).
  split; [exact Hrun|]. cbn [docs_dir mkdocs_yml]. split; [done|].
  split; [|split; [|split; [|split; [|split]]]].
  - unfold synced. rewrite (foldl_store_size E _ _ Hnd) by (intros; apply lookup_empty).
    rewrite map_size_empty. simpl.
    apply (filter_all_but_one _ _ bad); try done.
    intros x y Hx Hy Hpx Hpy.
    destruct (decide (x = bad)) as [->|Hxb];
      [|by rewrite (Hacc x Hx Hxb) in Hpx].
    destruct (decide (y = bad)) as [->|Hyb]; [done|].
    by rewrite (Hacc y Hy Hyb) in Hpy.
  - unfold synced. rewrite foldl_store_lookup_old; [apply lookup_empty|].
    intros g Hg Hn. by rewrite (NoDup_map_eq name _ g bad Hnd Hg Hbad Hn).
  - intros f Hin Hne. destruct (Hothers f Hin Hne) as (t & Hf & Ht).
    exists t. split; [done|]. by apply foldl_store_lookup_nodup.
  - apply section_entries_merged.
  - apply md_names_all. apply synced_md.
  - apply md_names_sorted.
Qed.

Lemma main_one_download_fails_witness :
  exists w' d files,
    main E0 w0 = (Ok tt, w')
    /\ docs_dir w' = Some d
    /\ size d = 2
    /\ d !! "c.md" = None
    /\ section_entries (mkdocs_yml w')
       = [YMap [("CuMind", YList (List.map nav_entry files))]]
    /\ files ≡ₚ (map_to_list d).*1
    /\ StronglySorted String.le files.
Proof.
  destruct (main_one_download_fails E0 w0 (FileInfo "c.md" "u/c")
              [home; stale_entry])
    as (w' & d & files & Hrun & Hd & Hsize & Hbad & _ & Hnav & Hperm & Hsorted).
  - apply (bool_decide_unpack _). by vm_compute.
  - vm_compute. lia.
  - right. right. by left.
  - reflexivity.
  - intros f [<-|[<-|[<-|[]]]] Hne.
    + eexists. split; [reflexivity | discriminate].
    + eexists. split; [reflexivity | discriminate].
    + by destruct Hne.
  - reflexivity.
  - exists w', d, files. repeat (split; [assumption|]). assumption.
Defined.

(** ** Empty downloads *)

Section empty_download.

Variable E : env.

Lemma fetched_url (f g : file_info) :
  download_url g = download_url f -> fetched E g = fetched E f.
Proof.
  intros Hu. unfold fetched, download_file, try_except, bind, requests_get.
  rewrite Hu.
  destruct (get_raw E (download_url f) (auth_headers E)) as [m|r]; simpl; [done|].
  destruct (raise_for_status_cases r w_init) as [H0|[m0 H0]]; by rewrite H0.
Qed.

Lemma download_file_some (f : file_info) (t : string) (w : world) :
  fetched E f = Some t ->
  download_file E f (auth_headers E) w = (Ok (Some t), w).
Proof.
  unfold fetched, download_file, try_except, bind, requests_get.
  destruct (get_raw E (download_url f) (auth_headers E)) as [m|r]; simpl; [done|].
  pose proof (raise_for_status_indep r w w_init) as Hi.
  destruct (raise_for_status_cases r w) as [Hw|[m Hw]],
           (raise_for_status_cases r w_init) as [H0|[m0 H0]];
    rewrite Hw, H0 in *; simpl in *; try discriminate.
  by intros [= ->].
Qed.

Lemma fetched_fail_at (u msg : string) (g : file_info) :
  fetched (fail_at E u msg) g
  = if String.eqb (download_url g) u then None else fetched E g.
Proof.
  unfold fetched, download_file, try_except, bind, requests_get. simpl.
  by destruct (String.eqb (download_url g) u).
Qed.

Lemma store_step_fail_at (f g : file_info) (msg : string)
    (d : gmap string string) :
  fetched E f = Some "" ->
  store_step (fail_at E (download_url f) msg) d g = store_step E d g.
Proof.
  intros Hf. unfold store_step. rewrite fetched_fail_at.
  destruct (String.eqb_spec (download_url g) (download_url f)) as [Hu|Hu]; [|done].
  by rewrite (fetched_url f g Hu), Hf.
Qed.

Lemma synced_fail_at (f : file_info) (msg : string) :
  fetched E f = Some "" ->
  synced (fail_at E (download_url f) msg) = synced E.
Proof.
  intros Hf. unfold synced.
  change (listed (fail_at E (download_url f) msg)) with (listed E).
  generalize (∅ : gmap string string).
  induction (listed E) as [|g l IH]; intros d; simpl; [done|].
  by rewrite IH, (store_step_fail_at f g msg d Hf).
Qed.

Lemma main_outcome_fail_at (f : file_info) (msg : string) (cfg : yaml) :
  fetched E f = Some "" ->
  main_outcome (fail_at E (download_url f) msg) cfg = main_outcome E cfg.
Proof.
  intros Hf. unfold main_outcome.
  change (listed (fail_at E (download_url f) msg)) with (listed E).
  by rewrite (synced_fail_at f msg Hf).
Qed.

End empty_download.


(** ** Title derivation *)

Lemma replace_char (c c' : ascii) (s : string) :
  replace (String c "") (String c' "") s
  = (fix go (s : string) : string :=
       match s with
       | "" => ""
       | String x s' => String (if Ascii.eqb c x then c' else x) (go s')
       end) s.
Proof.
  unfold replace. induction s as [|x s IH]; [done|].
  cbn [replace_go startswith String.length Nat.sub].
  destruct (Ascii.eqb c x); rewrite IH; reflexivity.
Qed.

Lemma replace_separators (s : string) :
  replace "-" " " (replace "_" " " s) = space_separators s.
Proof.
  rewrite !replace_char. induction s as [|x s IH]; [done|].
  cbn [space_separators]. rewrite <- IH.
  rewrite (Ascii.eqb_sym x "_"), (Ascii.eqb_sym x "-").
  destruct (Ascii.eqb_spec "_" x) as [<-|Hu]; [reflexivity|].
  cbn [orb]. reflexivity.
Qed.

Lemma contains_dot_md (s : string) : contains (s +:+ ".md") "." = true.
Proof.
  induction s as [|c s IH]; [reflexivity|].
  rewrite app_cons. cbn [contains]. rewrite IH. by destruct (startswith _ ".").
Qed.

Lemma stem_md (s : string) : stem (s +:+ ".md") = s.
Proof.
  induction s as [|c s IH]; [reflexivity|].
  rewrite app_cons. cbn [stem]. rewrite contains_dot_md, IH.
  by rewrite andb_false_r.
Qed.

Lemma startswith_md_app (s : string) :
  s <> "" -> startswith s ".md" = false -> startswith (s +:+ ".md") ".md" = false.
Proof.
  intros Hne Hs.
  destruct s as [|a [|b [|c s]]]; [done| | |exact Hs].
  - cbn. by destruct (Ascii.eqb "." a).
  - cbn. destruct (Ascii.eqb "." a); [|done]. by destruct (Ascii.eqb "m" b).
Qed.

Lemma replace_md_suffix (s : string) :
  contains s ".md" = false -> replace ".md" "" (s +:+ ".md") = s.
Proof.
  unfold replace. induction s as [|c s IH]; [reflexivity|].
  intros Hc. cbn [contains] in Hc.
  destruct (startswith (String c s) ".md") eqn:Hs; [discriminate|].
  pose proof (startswith_md_app (String c s) ltac:(discriminate) Hs) as Hs'.
  rewrite app_cons in *. cbn [replace_go]. rewrite Hs', IH; done.
Qed.

(** On a document name whose stem has no [.md] inside, the title
    expression of the script is the title rule of the specification. *)
Lemma title_of_title_spec (s : string) :
  contains s ".md" = false -> title_of (s +:+ ".md") = title_spec (s +:+ ".md").
Proof.
  intros Hc. unfold title_of, title_spec.
  by rewrite (replace_md_suffix s Hc), replace_separators, stem_md.
Qed.

(** C4.  The title expression maps [my_file-name.md] to [My File Name],
    as the title rule of the specification does; but it removes every
    occurrence of [.md], not only the extension: for [using.mdformat.md]
    the rule gives [Using.Mdformat] and the script [Usingformat]. *)
Theorem title_of_inner_md :
  title_of "my_file-name.md" = "My File Name"
  /\ title_spec "my_file-name.md" = "My File Name"
  /\ title_spec "using.mdformat.md" = "Using.Mdformat"
  /\ title_of "using.mdformat.md" = "Usingformat"
  /\ title_of "using.mdformat.md" <> title_spec "using.mdformat.md".
Proof. repeat split; try reflexivity. discriminate. Qed.

(** * Further properties of the script *)

(** ** Requests *)

(** X1.  [download_file] never raises and touches neither the directory
    nor the configuration.  When the request finds no answer, or the answer
    carries an error status (400 to 599), it prints one line naming the file
    and returns [None]; otherwise it prints nothing and returns the text of
    the response. *)
Theorem download_file_total (E : env) (f : file_info) (h : headers) (w : world) :
  exists content out,
    download_file E f h w = (Ok content, World (docs_dir w) (mkdocs_yml w) out)
    /\ match get_raw E (download_url f) h with
       | Failed msg =>
           content = None
           /\ out = stdout w ++ ["Error downloading " +:+ name f +:+ ": " +:+ msg]
       | Answer r =>
           if decide (400 <= status_code r < 600)%Z
           then content = None
                /\ exists msg,
                    out = stdout w ++ ["Error downloading " +:+ name f +:+ ": " +:+ msg]
           else content = Some (body r) /\ out = stdout w
       end.
Proof.
  unfold download_file, try_except, bind, requests_get.
  destruct (get_raw E (download_url f) h) as [msg|r]; simpl.
  - eexists _, _. split; [reflexivity|]. done.
  - unfold raise_for_status.
    destruct (decide (400 <= status_code r < 600)%Z) as [Hs|Hs].
    + destruct ((400 <=? status_code r)%Z && (status_code r <? 500)%Z) eqn:H4;
        simpl.
      { eexists _, _. split; [reflexivity|]. split; [done|]. by eexists. }
      destruct ((500 <=? status_code r)%Z && (status_code r <? 600)%Z) eqn:H5;
        simpl.
      { eexists _, _. split; [reflexivity|]. split; [done|]. by eexists. }
      exfalso. apply andb_false_iff in H4, H5. lia.
    + assert (H4 : (400 <=? status_code r)%Z && (status_code r <? 500)%Z = false).
      { apply andb_false_iff. lia. }
      assert (H5 : (500 <=? status_code r)%Z && (status_code r <? 600)%Z = false).
      { apply andb_false_iff. lia. }
      rewrite H4, H5. simpl. destruct w as [d cfg out]. simpl.
      eexists _, _. split; [reflexivity|]. done.
Qed.

Lemma for_each_ext {A} (l : list A) (body body' : A -> M unit) (w : world) :
  (forall x v, In x l -> body x v = body' x v) ->
  for_each l body w = for_each l body' w.
Proof.
  revert w. induction l as [|x l IH]; intros w Hb; simpl; [done|].
  unfold bind. rewrite (Hb x w) by by left.
  destruct (body' x w) as [[[]|e] w']; [|done].
  apply IH. intros y v Hy. apply Hb. by right.
Qed.

Lemma auth_headers_token (E E' : env) :
  get_github_token E = get_github_token E' -> auth_headers E = auth_headers E'.
Proof. unfold auth_headers. by intros ->. Qed.

Lemma main_unfold (E : env) (w : world) :
  main E w
  = match fetch_docs_from_github E
            (World (Some ∅) (mkdocs_yml w)
                   (stdout w ++ ["Starting CuMind documentation sync..."])) with
    | (Ok [], w2) => print "No markdown files found in CuMind docs" w2
    | (Ok (f :: fs), w2) =>
        (print ("Found " +:+ pretty (length (f :: fs)) +:+ " markdown files to sync") ;;
         for_each (f :: fs) (sync_one E (auth_headers E)) ;;
         update_mkdocs_nav ;;
         print "CuMind documentation sync completed!") w2
    | (Raise e, w2) => (Raise e, w2)
    end.
Proof.
  unfold main. unfold bind at 1. unfold print at 1.
  unfold bind at 1. rewrite clean_run. cbn [docs_dir mkdocs_yml stdout].
  unfold bind at 1.
  by destruct (fetch_docs_from_github E _) as [[[|f fs]|e] w2].
Qed.

(** X2.  A run reads the environment only through the value of
    [get_github_token] (so an unset and an empty [GITHUB_TOKEN] are the
    same), the answer of the listing request, and the answers of the
    download requests of the listed documents: two environments that agree
    on these give the same run, console included. *)
Theorem main_depends_on_requests (E E' : env) (w : world) :
  get_github_token E = get_github_token E' ->
  get_contents E tree_url (auth_headers E)
  = get_contents E' tree_url (auth_headers E) ->
  (forall f, In f (listed E) ->
             get_raw E (download_url f) (auth_headers E)
             = get_raw E' (download_url f) (auth_headers E)) ->
  main E w = main E' w.
Proof.
  intros Ht Hc Hr.
  pose proof (auth_headers_token E E' Ht) as Hh.
  assert (Hf : forall v, fetch_docs_from_github E' v = fetch_docs_from_github E v).
  { intros v. unfold fetch_docs_from_github. by rewrite <- Hh, <- Hc. }
  rewrite !main_unfold, Hf, <- Hh.
  destruct (fetch_docs_run E (World (Some ∅) (mkdocs_yml w)
              (stdout w ++ ["Starting CuMind documentation sync..."])))
    as [out1 H1].
  rewrite H1. destruct (listed E) as [|f0 fs] eqn:Hl; [done|].
  unfold bind at 1 4. destruct (print _ _) as [[[]|e] w3]; [|done].
  unfold bind at 1 3.
  rewrite (for_each_ext (f0 :: fs) (sync_one E' (auth_headers E))
             (sync_one E (auth_headers E))); [done|].
  intros f v Hin. unfold sync_one, download_file. by rewrite (Hr f Hin).
Qed.

Lemma main_depends_on_requests_witness : main E0 w0 = main E0_token w0.
Proof.
  apply main_depends_on_requests.
  - reflexivity.
  - reflexivity.
  - intros f [<-|[<-|[<-|[]]]]; reflexivity.
Defined.

(** ** Writing documents *)

(** X3.  Without the destination directory [save_doc_file] raises
    [FileNotFoundError] for the path of the file; nothing is written and
    the notice is not printed. *)
Theorem save_doc_file_no_directory (filename content : string) (w : world) :
  docs_dir w = None ->
  save_doc_file filename content w
  = (Raise (FileNotFoundError ("docs/CuMind/" +:+ filename)), w).
Proof.
  intros Hd. unfold save_doc_file, bind, write_file. by rewrite Hd.
Qed.

Lemma save_doc_file_no_directory_witness :
  save_doc_file "a.md" "# A" w_plain
  = (Raise (FileNotFoundError "docs/CuMind/a.md"), w_plain).
Proof. apply (save_doc_file_no_directory "a.md" "# A" w_plain). reflexivity. Defined.

Lemma save_doc_file_run (filename content : string) (d : gmap string string)
    (cfg : yaml) (out : list string) :
  save_doc_file filename content (World (Some d) cfg out)
  = (Ok tt, World (Some (<[filename := with_frontmatter filename content]> d)) cfg
                  (out ++ ["Saved: " +:+ filename])).
Proof. reflexivity. Qed.

Lemma with_frontmatter_fixed (filename content : string) :
  startswith content "---" = true -> with_frontmatter filename content = content.
Proof. intros Hs. unfold with_frontmatter. by rewrite Hs. Qed.

(** X4.  What [save_doc_file] has written can be saved again, under any
    name, without change: the second write stores the very same text, with
    no second front-matter block. *)
Theorem save_doc_file_stored_text_stable (filename filename' content : string)
    (w : world) (d : gmap string string) :
  docs_dir w = Some d ->
  exists written w1 w2,
    save_doc_file filename content w = (Ok tt, w1)
    /\ docs_dir w1 = Some (<[filename := written]> d)
    /\ save_doc_file filename' written w1 = (Ok tt, w2)
    /\ docs_dir w2 = Some (<[filename' := written]> (<[filename := written]> d)).
Proof.
  intros Hd. destruct w as [dd cfg out]. simpl in Hd. subst dd.
  eexists _, _, _. rewrite !save_doc_file_run. cbn [docs_dir].
  split; [reflexivity|]. split; [reflexivity|].
  rewrite (with_frontmatter_fixed filename'
             (with_frontmatter filename content)
             (with_frontmatter_startswith filename content)).
  split; reflexivity.
Qed.

Lemma save_doc_file_stored_text_stable_witness :
  exists written w1 w2,
    save_doc_file "a-intro.md" "# Intro" w_stale = (Ok tt, w1)
    /\ docs_dir w1 = Some (<["a-intro.md" := written]> ∅)
    /\ save_doc_file "a-intro.md" written w1 = (Ok tt, w2)
    /\ docs_dir w2 = docs_dir w1.
Proof.
  destruct (save_doc_file_stored_text_stable "a-intro.md" "a-intro.md" "# Intro"
              w_stale ∅ eq_refl)
    as (written & w1 & w2 & H1 & Hd1 & H2 & Hd2).
  exists written, w1, w2. repeat (split; [assumption|]).
  rewrite Hd2, Hd1. by rewrite insert_insert_eq.
Defined.

(** X5.  Two writes under one name leave the text of the second write
    only, and no write changes a file of another name. *)
Theorem save_doc_file_overwrites (filename c1 c2 : string) (w : world)
    (d : gmap string string) :
  docs_dir w = Some d ->
  exists w2 d2,
    (save_doc_file filename c1 ;; save_doc_file filename c2) w = (Ok tt, w2)
    /\ docs_dir w2 = Some d2
    /\ d2 !! filename = Some (with_frontmatter filename c2)
    /\ (forall other, other <> filename -> d2 !! other = d !! other)
    /\ docs_dir w2 = docs_dir (save_doc_file filename c2 w).2
    /\ mkdocs_yml w2 = mkdocs_yml w.
Proof.
  intros Hd. destruct w as [dd cfg out]. simpl in Hd. subst dd.
  unfold bind. rewrite !save_doc_file_run. cbn [docs_dir mkdocs_yml snd].
  eexists _, _. split; [reflexivity|]. split; [reflexivity|].
  rewrite insert_insert_eq. split; [apply lookup_insert_eq|].
  split; [|done]. intros other Hne. by apply lookup_insert_ne.
Qed.

Lemma save_doc_file_overwrites_witness :
  exists w2 d2,
    (save_doc_file "old.md" "one" ;; save_doc_file "old.md" "---two") w0 = (Ok tt, w2)
    /\ docs_dir w2 = Some d2
    /\ d2 !! "old.md" = Some "---two".
Proof.
  destruct (save_doc_file_overwrites "old.md" "one" "---two" w0
              {[ "old.md" := "x" ]} eq_refl)
    as (w2 & d2 & Hrun & Hd & Hl & _).
  exists w2, d2. split; [exact Hrun|]. split; [exact Hd | exact Hl].
Defined.

(** X6.  A reset followed by a write never fails: from every state of the
    destination directory it leaves a directory that holds exactly the file
    just written. *)
Theorem clean_then_save (filename content : string) (w : world) :
  (clean_cumind_docs_dir ;; save_doc_file filename content) w
  = (Ok tt,
     World (Some {[ filename := with_frontmatter filename content ]})
           (mkdocs_yml w) (stdout w ++ ["Saved: " +:+ filename])).
Proof.
  unfold bind at 1. rewrite clean_run, save_doc_file_run.
  by rewrite insert_empty.
Qed.

(** ** More on the navigation merge *)

Lemma update_mkdocs_nav_exact (d : gmap string string) (cfg : yaml)
    (out : list string) :
  update_mkdocs_nav (World (Some d) cfg out)
  = match md_names d with
    | [] =>
        (Ok tt, World (Some d) cfg
                      (out ++ ["No CuMind documentation files found to add to navigation"]))
    | _ :: _ =>
        match merge_nav cfg (List.map nav_entry (md_names d)) with
        | Ok cfg' =>
            (Ok tt, World (Some d) cfg'
                          (out ++ ["Updated mkdocs.yml with CuMind navigation"]))
        | Raise e => (Raise e, World (Some d) cfg out)
        end
    end.
Proof.
  unfold update_mkdocs_nav, bind, yaml_safe_load, os_listdir.
  simpl. fold (md_names d).
  destruct (md_names d) as [|f fs] eqn:Hn; [done|].
  unfold lift_res.
  by destruct (merge_nav cfg (List.map nav_entry (f :: fs))) as [cfg'|e].
Qed.

Lemma md_names_no_md (d : gmap string string) :
  (forall f, is_Some (d !! f) -> endswith f ".md" = false) -> md_names d = [].
Proof.
  intros Hno. destruct (md_names d) as [|f fs] eqn:Hm; [done|].
  assert (Hin : In f (md_names d)) by (rewrite Hm; by left).
  apply md_names_In in Hin as [Hf He]. rewrite (Hno f Hf) in He. discriminate.
Qed.

Lemma dict_get_set_ne (k k' : string) (v : yaml) (d : dict) :
  k <> k' -> dict_get k' (dict_set k v d) = dict_get k' d.
Proof.
  intros Hne. induction d as [|[k0 v0] d IH]; simpl.
  - destruct (String.eqb_spec k' k); [congruence | done].
  - destruct (String.eqb_spec k k0) as [->|Hk]; simpl.
    + destruct (String.eqb_spec k' k0); [congruence | done].
    + by rewrite IH.
Qed.

Lemma dict_keys_set (k : string) (v : yaml) (d : dict) :
  List.map fst (dict_set k v d)
  = if dict_contains k d then List.map fst d else List.map fst d ++ [k].
Proof.
  induction d as [|[k0 v0] d IH]; simpl; [done|].
  destruct (String.eqb_spec k k0) as [->|Hk]; simpl; [done|].
  rewrite IH. by destruct (dict_contains k d).
Qed.

Lemma merge_nav_ok_inv (config config' : yaml) (cumind_nav : list yaml) :
  merge_nav config cumind_nav = Ok config' ->
  exists cfg items,
    config = YMap cfg
    /\ nav_items config = Some items
    /\ config' = YMap (dict_set "nav"
                         (YList (List.filter not_cumind items
                                 ++ [section_entry cumind_nav])) cfg).
Proof.
  intros Hm. destruct (nav_items config) as [items|] eqn:Hi.
  - destruct (nav_items_mapping _ _ Hi) as [cfg ->].
    rewrite (merge_nav_ok _ _ _ Hi) in Hm. injection Hm as <-.
    by exists cfg, items.
  - destruct (merge_nav_raise config cumind_nav Hi) as [e He]. congruence.
Qed.

Lemma nav_outcome_again (d : gmap string string) (cfg cfg1 : yaml) :
  nav_outcome d cfg = (Ok tt, cfg1) -> nav_outcome d cfg1 = (Ok tt, cfg1).
Proof.
  unfold nav_outcome. destruct (md_names d) as [|f fs]; [by intros [= <-]|].
  destruct (merge_nav cfg _) as [c|e] eqn:Hm; [|discriminate].
  intros [= <-]. apply merge_nav_ok_inv in Hm as (c0 & items & -> & _ & ->).
  by rewrite merge_nav_again.
Qed.

(** X7.  Without the destination directory [update_mkdocs_nav] raises
    [FileNotFoundError] when it lists the directory; [mkdocs.yml] is not
    rewritten and nothing is printed. *)
Theorem update_mkdocs_nav_no_directory (w : world) :
  docs_dir w = None ->
  update_mkdocs_nav w = (Raise (FileNotFoundError "docs/CuMind"), w).
Proof.
  intros Hd. unfold update_mkdocs_nav, bind, yaml_safe_load, os_listdir.
  by rewrite Hd.
Qed.

Lemma update_mkdocs_nav_no_directory_witness :
  update_mkdocs_nav w_plain = (Raise (FileNotFoundError "docs/CuMind"), w_plain).
Proof. apply (update_mkdocs_nav_no_directory w_plain). reflexivity. Defined.

(** X8.  When no name in the directory ends with [.md] (the directory is
    empty, or holds other files only), [update_mkdocs_nav] prints its
    notice and returns normally without touching [mkdocs.yml], whatever
    the loaded document is, even one the merge could not handle. *)
Theorem update_mkdocs_nav_no_documents (w : world) (d : gmap string string) :
  docs_dir w = Some d ->
  (forall f, is_Some (d !! f) -> endswith f ".md" = false) ->
  update_mkdocs_nav w
  = (Ok tt,
     World (Some d) (mkdocs_yml w)
           (stdout w ++ ["No CuMind documentation files found to add to navigation"])).
Proof.
  intros Hd Hno. destruct w as [dd cfg out]. simpl in *. subst dd.
  by rewrite update_mkdocs_nav_exact, (md_names_no_md d Hno).
Qed.

Lemma update_mkdocs_nav_no_documents_witness :
  update_mkdocs_nav w_pics
  = (Ok tt,
     World (Some {[ "logo.png" := "PNG" ]}) YNull
           ["No CuMind documentation files found to add to navigation"]).
Proof.
  apply (update_mkdocs_nav_no_documents w_pics {[ "logo.png" := "PNG" ]} eq_refl).
  intros f [v Hv]. apply lookup_singleton_Some in Hv as [<- _]. reflexivity.
Defined.

(** X9.  With at least one document in the directory, [update_mkdocs_nav]
    returns normally exactly when the loaded document is a mapping whose
    [nav] is absent or can be iterated; otherwise it raises before anything
    is written or printed, and the world is left as it was. *)
Theorem update_mkdocs_nav_succeeds_iff (w : world) (d : gmap string string)
    (f : string) :
  docs_dir w = Some d ->
  is_Some (d !! f) ->
  endswith f ".md" = true ->
  ((update_mkdocs_nav w).1 = Ok tt <-> nav_items (mkdocs_yml w) <> None)
  /\ ((update_mkdocs_nav w).1 <> Ok tt -> (update_mkdocs_nav w).2 = w).
Proof.
  intros Hd Hf He. destruct w as [dd cfg out]. simpl in *. subst dd.
  rewrite update_mkdocs_nav_exact.
  pose proof (md_names_nonempty d f Hf He) as Hn.
  destruct (md_names d) as [|n ns] eqn:Hm; [done|].
  destruct (nav_items cfg) as [items|] eqn:Hi.
  - destruct (nav_items_mapping _ _ Hi) as [c ->].
    rewrite (merge_nav_ok _ _ _ Hi). simpl. split; [done|]. by intros [].
  - destruct (merge_nav_raise cfg (List.map nav_entry (n :: ns)) Hi) as [e ->].
    simpl. split; [|done]. split; [discriminate | by intros []].
Qed.

Lemma update_mkdocs_nav_succeeds_iff_witness :
  (update_mkdocs_nav w_null).1 <> Ok tt
  /\ (update_mkdocs_nav w_null).2 = w_null
  /\ (update_mkdocs_nav w_multi).1 = Ok tt.
Proof.
  assert (Ha : is_Some (({[ "a.md" := "x" ]} : gmap string string) !! "a.md")).
  { exists "x". reflexivity. }
  destruct (update_mkdocs_nav_succeeds_iff w_null {[ "a.md" := "x" ]} "a.md"
              eq_refl Ha eq_refl) as [Hiff Hsame].
  destruct (update_mkdocs_nav_succeeds_iff w_multi {[ "a.md" := "x" ]} "a.md"
              eq_refl Ha eq_refl) as [Hiff' _].
  assert (Hbad : (update_mkdocs_nav w_null).1 <> Ok tt).
  { intros Hok. apply Hiff in Hok. apply Hok. reflexivity. }
  split; [exact Hbad|]. split; [exact (Hsame Hbad)|].
  apply Hiff'. vm_compute. discriminate.
Defined.

(** X10.  A successful merge rewrites the key [nav] only: every other
    top-level key of [mkdocs.yml] keeps its value, the keys keep their
    order, and a [nav] key that was missing is added last. *)
Theorem update_mkdocs_nav_keeps_other_keys (w w' : world) (cfg : dict) :
  mkdocs_yml w = YMap cfg ->
  update_mkdocs_nav w = (Ok tt, w') ->
  exists cfg',
    mkdocs_yml w' = YMap cfg'
    /\ (forall k, k <> "nav" -> dict_get k cfg' = dict_get k cfg)
    /\ (docs_dir w' = docs_dir w)
    /\ (List.map fst cfg' = List.map fst cfg
        \/ (dict_contains "nav" cfg = false
            /\ List.map fst cfg' = List.map fst cfg ++ ["nav"])).
Proof.
  intros Hc Hrun. destruct w as [[d|] c out]; simpl in Hc; subst c.
  - rewrite update_mkdocs_nav_exact in Hrun.
    destruct (md_names d) as [|n ns] eqn:Hm.
    + injection Hrun as <-. exists cfg. split; [done|]. split; [done|].
      split; [done | by left].
    + destruct (merge_nav (YMap cfg) _) as [c'|e] eqn:Hmerge; [|discriminate].
      injection Hrun as <-.
      apply merge_nav_ok_inv in Hmerge as (c0 & items & [= <-] & _ & ->).
      eexists. split; [reflexivity|]. split; [|split; [done|]].
      * intros k Hk. by apply dict_get_set_ne.
      * rewrite dict_keys_set. destruct (dict_contains "nav" cfg); auto.
  - rewrite update_mkdocs_nav_no_directory in Hrun by done. discriminate.
Qed.

Lemma update_mkdocs_nav_keeps_other_keys_witness :
  exists cfg',
    mkdocs_yml (update_mkdocs_nav w_multi).2 = YMap cfg'
    /\ dict_get "site_name" cfg' = Some (YStr "Docs")
    /\ List.map fst cfg' = ["site_name"; "nav"].
Proof.
  destruct (update_mkdocs_nav_keeps_other_keys w_multi (update_mkdocs_nav w_multi).2
              [("site_name", YStr "Docs"); ("nav", YList [multi_key_entry; home])]
              eq_refl)
    as (cfg' & Hc & Hk & _ & [Hkeys|[Hno _]]).
  - reflexivity.
  - exists cfg'. split; [exact Hc|]. split; [|exact Hkeys].
    rewrite Hk; [reflexivity | discriminate].
  - discriminate Hno.
Defined.

(** X11.  [update_mkdocs_nav] is idempotent: after a run that returned
    normally, a second run returns normally too and leaves the directory
    and [mkdocs.yml] as the first run left them. *)
Theorem update_mkdocs_nav_idempotent (w w1 : world) :
  update_mkdocs_nav w = (Ok tt, w1) ->
  exists w2,
    update_mkdocs_nav w1 = (Ok tt, w2)
    /\ docs_dir w2 = docs_dir w1
    /\ docs_dir w1 = docs_dir w
    /\ mkdocs_yml w2 = mkdocs_yml w1.
Proof.
  intros Hrun. destruct w as [[d|] cfg out].
  - destruct (update_mkdocs_nav_run d cfg out) as [out1 H1].
    rewrite H1 in Hrun. injection Hrun as Hres <-.
    destruct (nav_outcome d cfg) as [r cfg1] eqn:Ho. simpl in Hres. subst r.
    destruct (update_mkdocs_nav_run d cfg1 out1) as [out2 H2].
    rewrite (nav_outcome_again d cfg cfg1 Ho) in H2. simpl in *.
    eexists. split; [exact H2|]. done.
  - rewrite update_mkdocs_nav_no_directory in Hrun by done. discriminate.
Qed.

Lemma update_mkdocs_nav_idempotent_witness :
  exists w2,
    update_mkdocs_nav (update_mkdocs_nav w_multi).2 = (Ok tt, w2)
    /\ mkdocs_yml w2 = mkdocs_yml (update_mkdocs_nav w_multi).2.
Proof.
  destruct (update_mkdocs_nav_idempotent w_multi (update_mkdocs_nav w_multi).2)
    as (w2 & Hrun & _ & _ & Hc).
  - reflexivity.
  - exists w2. split; [exact Hrun | exact Hc].
Defined.

Lemma nav_entry_inj (f g : string) : nav_entry f = nav_entry g -> f = g.
Proof.
  unfold nav_entry. intros [= _ Hp]. exact Hp.
Qed.

(** X12.  The section written by a successful merge has one entry per
    name of the directory that ends with [.md], and no other: files with
    another ending get no entry.  Each entry is the single-key mapping from
    the title of the file to [CuMind/<file>], no entry occurs twice, and the
    entries follow the ascending order of the file names. *)
Theorem update_mkdocs_nav_section_entries (w : world) (d : gmap string string)
    (items : list yaml) (f0 : string) :
  docs_dir w = Some d ->
  is_Some (d !! f0) ->
  endswith f0 ".md" = true ->
  nav_items (mkdocs_yml w) = Some items ->
  exists w' files,
    update_mkdocs_nav w = (Ok tt, w')
    /\ section_entries (mkdocs_yml w')
       = [YMap [("CuMind",
                 YList (List.map (fun f => YMap [(title_of f, YStr ("CuMind/" +:+ f))])
                                 files))]]
    /\ (forall f, In f files <-> is_Some (d !! f) /\ endswith f ".md" = true)
    /\ NoDup files
    /\ StronglySorted String.le files
    /\ forall f, In (nav_entry f) (List.map nav_entry files) <-> In f files.
Proof.
  intros Hd Hf He Hi.
  destruct (nav_items_mapping _ _ Hi) as [cfg Hc]. rewrite Hc in Hi.
  destruct (update_mkdocs_nav_merge w d cfg items Hd
              (md_names_nonempty d f0 Hf He) Hc Hi) as [out Hrun].
  eexists _, (md_names d). split; [exact Hrun|]. cbn [mkdocs_yml].
  split; [apply section_entries_merged|].
  split; [apply md_names_In|]. split; [apply md_names_NoDup|].
  split; [apply md_names_sorted|].
  intros f. rewrite in_map_iff. split.
  - intros (g & Hg & Hin). by rewrite <- (nav_entry_inj _ _ Hg).
  - intros Hin. by exists f.
Qed.

Lemma update_mkdocs_nav_section_entries_witness :
  exists w',
    update_mkdocs_nav
      (World (Some {[ "b.md" := "x"; "logo.png" := "y"; "a_b.md" := "z" ]})
             (config_of [home]) [])
    = (Ok tt, w')
    /\ section_entries (mkdocs_yml w')
       = [YMap [("CuMind", YList [YMap [("A B", YStr "CuMind/a_b.md")];
                                  YMap [("B", YStr "CuMind/b.md")]])]].
Proof.
  destruct (update_mkdocs_nav_section_entries
              (World (Some {[ "b.md" := "x"; "logo.png" := "y"; "a_b.md" := "z" ]})
                     (config_of [home]) [])
              {[ "b.md" := "x"; "logo.png" := "y"; "a_b.md" := "z" ]}
              [home] "b.md" eq_refl)
    as (w' & files & Hrun & Hs & _).
  - exists "x". reflexivity.
  - reflexivity.
  - reflexivity.
  - exists w'. split; [exact Hrun|].
    vm_compute in Hrun. injection Hrun as <-. reflexivity.
Defined.

(** X13.  When [mkdocs.yml] is a mapping without a [nav] key and the
    directory holds a document, the merge creates the key, placed after the
    existing keys, with the section entry as its only item. *)
Theorem update_mkdocs_nav_creates_nav (w : world) (d : gmap string string)
    (cfg : dict) (f : string) :
  docs_dir w = Some d ->
  is_Some (d !! f) ->
  endswith f ".md" = true ->
  mkdocs_yml w = YMap cfg ->
  dict_get "nav" cfg = None ->
  exists w' cfg',
    update_mkdocs_nav w = (Ok tt, w')
    /\ mkdocs_yml w' = YMap cfg'
    /\ List.map fst cfg' = List.map fst cfg ++ ["nav"]
    /\ dict_get "nav" cfg'
       = Some (YList [YMap [("CuMind", YList (List.map nav_entry (md_names d)))]]).
Proof.
  intros Hd Hf He Hc Hnav.
  assert (Hi : nav_items (YMap cfg) = Some []).
  { unfold nav_items. by rewrite Hnav. }
  destruct (update_mkdocs_nav_merge w d cfg [] Hd
              (md_names_nonempty d f Hf He) Hc Hi) as [out Hrun].
  eexists _, _. split; [exact Hrun|]. cbn [mkdocs_yml]. split; [reflexivity|].
  split.
  - rewrite dict_keys_set, dict_contains_get, Hnav.
    rewrite bool_decide_eq_false_2; [done | by intros [? ?]].
  - by rewrite dict_get_set.
Qed.

Lemma update_mkdocs_nav_creates_nav_witness :
  exists w',
    update_mkdocs_nav (World (Some {[ "a.md" := "x" ]})
                             (YMap [("site_name", YStr "Docs")]) [])
    = (Ok tt, w')
    /\ mkdocs_yml w'
       = YMap [("site_name", YStr "Docs");
               ("nav", YList [YMap [("CuMind",
                                     YList [YMap [("A", YStr "CuMind/a.md")]])]])].
Proof.
  destruct (update_mkdocs_nav_creates_nav
              (World (Some {[ "a.md" := "x" ]}) (YMap [("site_name", YStr "Docs")]) [])
              {[ "a.md" := "x" ]} [("site_name", YStr "Docs")] "a.md" eq_refl)
    as (w' & cfg' & Hrun & _).
  - exists "x". reflexivity.
  - reflexivity.
  - reflexivity.
  - reflexivity.
  - exists w'. split; [exact Hrun|].
    vm_compute in Hrun. injection Hrun as <-. reflexivity.
Defined.

Lemma filter_not_cumind_strings (l : list string) :
  List.filter not_cumind (List.map YStr l) = List.map YStr l.
Proof. induction l as [|s l IH]; simpl; [done|]. by rewrite IH. Qed.

(** X14.  A [nav] that is a mapping instead of a list does not stop the
    merge: iterating it gives its keys, so the new [nav] is the list of
    those keys, as plain strings and without their values, followed by the
    section entry. *)
Theorem update_mkdocs_nav_mapping_nav (w : world) (d : gmap string string)
    (cfg m : dict) (f : string) :
  docs_dir w = Some d ->
  is_Some (d !! f) ->
  endswith f ".md" = true ->
  mkdocs_yml w = YMap cfg ->
  dict_get "nav" cfg = Some (YMap m) ->
  exists w',
    update_mkdocs_nav w = (Ok tt, w')
    /\ nav_list (mkdocs_yml w')
       = List.map YStr (List.map fst m)
         ++ [YMap [("CuMind", YList (List.map nav_entry (md_names d)))]].
Proof.
  intros Hd Hf He Hc Hnav.
  assert (Hi : nav_items (YMap cfg) = Some (List.map YStr (List.map fst m))).
  { unfold nav_items. rewrite Hnav. simpl. by rewrite List.map_map. }
  destruct (update_mkdocs_nav_merge w d cfg _ Hd
              (md_names_nonempty d f Hf He) Hc Hi) as [out Hrun].
  eexists. split; [exact Hrun|]. cbn [mkdocs_yml].
  by rewrite nav_list_set, filter_not_cumind_strings.
Qed.

Lemma update_mkdocs_nav_mapping_nav_witness :
  exists w',
    update_mkdocs_nav w_navmap = (Ok tt, w')
    /\ nav_list (mkdocs_yml w')
       = [YStr "Home"; YStr "About";
          YMap [("CuMind", YList [YMap [("A", YStr "CuMind/a.md")]])]].
Proof.
  destruct (update_mkdocs_nav_mapping_nav w_navmap {[ "a.md" := "x" ]}
              [("nav", YMap [("Home", YStr "index.md"); ("About", YStr "about.md")]);
               ("site_name", YStr "Docs")]
              [("Home", YStr "index.md"); ("About", YStr "about.md")]
              "a.md" eq_refl)
    as (w' & Hrun & Hnav).
  - exists "x". reflexivity.
  - reflexivity.
  - reflexivity.
  - reflexivity.
  - exists w'. split; [exact Hrun|]. rewrite Hnav. reflexivity.
Defined.

(** ** More on the orchestrator *)

Lemma foldl_store_sound (E : env) (l : list file_info) (d : gmap string string)
    (k v : string) :
  foldl (store_step E) d l !! k = Some v ->
  d !! k = Some v
  \/ exists f t, In f l /\ name f = k /\ fetched E f = Some t /\ t <> ""
                 /\ v = with_frontmatter k t.
Proof.
  revert d. induction l as [|g l IH]; intros d; simpl; [by left|].
  intros Hk. destruct (IH _ Hk) as [Hs|(f & t & Hin & Hr)].
  - destruct (accepts E g) eqn:Hg.
    + apply accepts_spec in Hg as (t & Hf & Ht).
      rewrite (store_step_accepted _ _ _ _ Hf Ht) in Hs.
      destruct (decide (name g = k)) as [<-|Hgk].
      * rewrite lookup_insert_eq in Hs. injection Hs as <-.
        right. exists g, t. split; [by left | done].
      * left. by rewrite lookup_insert_ne in Hs.
    + left. by rewrite store_step_rejected in Hs.
  - right. exists f, t. split; [by right | done].
Qed.

Lemma foldl_store_rejected (E : env) (l : list file_info) (d : gmap string string) :
  (forall f, In f l -> accepts E f = false) -> foldl (store_step E) d l = d.
Proof.
  revert d. induction l as [|g l IH]; intros d Hl; simpl; [done|].
  rewrite store_step_rejected by (apply Hl; by left).
  apply IH. intros f Hin. apply Hl. by right.
Qed.

Lemma main_store (E : env) (w : world) : docs_dir (main E w).2 = Some (synced E).
Proof. destruct (main_run E w) as [out ->]. reflexivity. Qed.

(** X15.  What a run leaves in the directory is decided by the remote
    alone: two runs from different local states end with the same
    directory, and every file in it is the text [save_doc_file] writes for
    a listed document whose download returned a non-empty text.  Files that
    were there before and are not synced again are gone. *)
Theorem main_store_from_remote (E : env) (w w' : world) :
  exists d,
    docs_dir (main E w).2 = Some d
    /\ docs_dir (main E w').2 = Some d
    /\ forall k v,
         d !! k = Some v ->
         exists f t, In f (listed E) /\ name f = k /\ fetched E f = Some t
                     /\ t <> "" /\ v = with_frontmatter k t.
Proof.
  exists (synced E). rewrite !main_store. split; [done|]. split; [done|].
  intros k v Hk. apply foldl_store_sound in Hk as [Hk|Hk]; [|done].
  by rewrite lookup_empty in Hk.
Qed.

(** X16.  After every run, each file of the directory has a name that ends
    with [.md] and a text that begins with [---]. *)
Theorem main_store_invariant (E : env) (w : world) (d : gmap string string)
    (k v : string) :
  docs_dir (main E w).2 = Some d ->
  d !! k = Some v ->
  endswith k ".md" = true /\ startswith v "---" = true.
Proof.
  rewrite main_store. intros [= <-] Hk. split.
  - apply (synced_md E). by eexists.
  - apply foldl_store_sound in Hk as [Hk|(f & t & _ & _ & _ & _ & ->)].
    + by rewrite lookup_empty in Hk.
    + apply with_frontmatter_startswith.
Qed.

Lemma main_store_invariant_witness :
  exists d v,
    docs_dir (main E0 w0).2 = Some d
    /\ d !! "a-intro.md" = Some v
    /\ endswith "a-intro.md" ".md" = true /\ startswith v "---" = true.
Proof.
  assert (Hd : docs_dir (main E0 w0).2 = Some (synced E0)) by reflexivity.
  assert (Hv : synced E0 !! "a-intro.md"
               = Some (with_frontmatter "a-intro.md" "# Intro")) by reflexivity.
  exists (synced E0), (with_frontmatter "a-intro.md" "# Intro").
  split; [exact Hd|]. split; [exact Hv|].
  exact (main_store_invariant E0 w0 _ _ _ Hd Hv).
Defined.

(** X17.  When the listing names a file more than once, the last of its
    downloads that returned a non-empty text is the one found in the
    directory after the run: a later write replaces an earlier one. *)
Theorem main_last_write_wins (E : env) (w : world) (l1 l2 : list file_info)
    (f : file_info) (t : string) :
  listed E = l1 ++ f :: l2 ->
  fetched E f = Some t ->
  t <> "" ->
  (forall g, In g l2 -> name g = name f ->
             fetched E g = None \/ fetched E g = Some "") ->
  exists d,
    docs_dir (main E w).2 = Some d
    /\ d !! name f = Some (with_frontmatter (name f) t).
Proof.
  intros Hl Hf Ht Hlater. exists (synced E). split; [apply main_store|].
  unfold synced. rewrite Hl, foldl_app. simpl.
  rewrite foldl_store_lookup_old.
  - by rewrite (store_step_accepted _ _ _ _ Hf Ht), lookup_insert_eq.
  - intros g Hg Hn. unfold accepts.
    destruct (Hlater g Hg Hn) as [-> | ->]; reflexivity.
Qed.

Lemma main_last_write_wins_witness :
  exists d,
    docs_dir (main E_dup w0).2 = Some d
    /\ d !! "a.md" = Some (with_frontmatter "a.md" "second").
Proof.
  apply (main_last_write_wins E_dup w0 [FileInfo "a.md" "u/1"] []
           (FileInfo "a.md" "u/2") "second").
  - reflexivity.
  - reflexivity.
  - discriminate.
  - intros g [].
Defined.

Lemma synced_rejected (E : env) :
  (forall f, In f (listed E) -> accepts E f = false) -> synced E = ∅.
Proof. apply foldl_store_rejected. Qed.

Lemma accepts_false (E : env) (f : file_info) :
  accepts E f = false <-> fetched E f = None \/ fetched E f = Some "".
Proof.
  unfold accepts, str_truthy. destruct (fetched E f) as [t|].
  - destruct (String.eqb_spec t "") as [->|Hne]; simpl.
    + split; [by right | done].
    + split; [discriminate | intros [?|[= ?]]; done].
  - split; [by left | done].
Qed.

Lemma main_outcome_rejected (E : env) (cfg : yaml) :
  (forall f, In f (listed E) -> accepts E f = false) ->
  main_outcome E cfg = (Ok tt, cfg).
Proof.
  intros Hrej. unfold main_outcome, nav_outcome.
  rewrite (synced_rejected E Hrej), md_names_empty.
  by destruct (listed E).
Qed.

Lemma accepted_or_rejected (E : env) :
  (forall f, In f (listed E) -> accepts E f = false)
  \/ exists f, In f (listed E) /\ accepts E f = true.
Proof.
  destruct (List.filter (accepts E) (listed E)) as [|f fs] eqn:Hfil.
  - left. intros f Hin. destruct (accepts E f) eqn:Ha; [|done].
    assert (Hf : In f (List.filter (accepts E) (listed E)))
      by (apply List.filter_In; done).
    rewrite Hfil in Hf. destruct Hf.
  - right. exists f. apply List.filter_In. rewrite Hfil. by left.
Qed.

(** X18.  A run returns normally exactly when no listed document is
    written (every download fails or returns the empty text) or
    [mkdocs.yml] is a mapping whose [nav] is absent or can be iterated.  In
    the remaining case the exception of the merge ends the run, after the
    directory was synced and before [mkdocs.yml] is rewritten. *)
Theorem main_succeeds_iff (E : env) (w : world) :
  ((main E w).1 = Ok tt
   <-> ((forall f, In f (listed E) ->
                   fetched E f = None \/ fetched E f = Some "")
        \/ nav_items (mkdocs_yml w) <> None))
  /\ ((main E w).1 <> Ok tt ->
      docs_dir (main E w).2 = Some (synced E)
      /\ mkdocs_yml (main E w).2 = mkdocs_yml w).
Proof.
  destruct (main_run E w) as [out Hrun]. rewrite Hrun.
  cbn [fst snd mkdocs_yml docs_dir].
  destruct (accepted_or_rejected E) as [Hrej|(f & Hin & Ha)].
  - rewrite (main_outcome_rejected E _ Hrej). cbn [fst snd]. split; [|done].
    split; [|done]. intros _. left. intros f Hin. by apply accepts_false, Hrej.
  - destruct (nav_items (mkdocs_yml w)) as [items|] eqn:Hi.
    + destruct (nav_items_mapping _ _ Hi) as [cfg Hc]. rewrite Hc in *.
      rewrite (main_outcome_ok E cfg items f Hin Ha Hi). cbn [fst snd].
      split; [|done]. split; [|done]. intros _. right. discriminate.
    + destruct (main_bad_config E w f Hin Ha Hi) as (e & out' & Hbad).
      rewrite Hrun in Hbad. injection Hbad as Hres Hcfg _.
      rewrite Hres, Hcfg. split; [|done]. split; [discriminate|].
      intros [Hall|Hne]; [|done].
      specialize (Hall f Hin). apply accepts_false in Hall. congruence.
Qed.


Lemma main_succeeds_iff_witness :
  (main E0 w0).1 = Ok tt
  /\ (main E0 w_null).1 <> Ok tt
  /\ docs_dir (main E0 w_null).2 = Some (synced E0)
  /\ mkdocs_yml (main E0 w_null).2 = YNull.
Proof.
  destruct (main_succeeds_iff E0 w0) as [Hiff _].
  destruct (main_succeeds_iff E0 w_null) as [Hiff' Hkeep].
  assert (Hbad : (main E0 w_null).1 <> Ok tt).
  { intros Hok. apply Hiff' in Hok as [Hall|Hne].
    - destruct (Hall (FileInfo "a-intro.md" "u/a")) as [H|H];
        [right; by left | discriminate H | discriminate H].
    - apply Hne. reflexivity. }
  split; [|split; [exact Hbad | exact (Hkeep Hbad)]].
  apply Hiff. right. vm_compute. discriminate.
Defined.

Lemma main_outcome_twice (E : env) (cfg cfg1 : yaml) :
  main_outcome E cfg = (Ok tt, cfg1) -> main_outcome E cfg1 = (Ok tt, cfg1).
Proof.
  unfold main_outcome. destruct (listed E) as [|f fs]; [by intros [= <-]|].
  apply nav_outcome_again.
Qed.

(** X19.  Every run that returns normally can be repeated: against the
    same remote the next run returns normally as well and leaves the
    directory and [mkdocs.yml] as they are, also when nothing was listed or
    nothing was written. *)
Theorem main_rerun (E : env) (w w1 : world) :
  main E w = (Ok tt, w1) ->
  exists w2,
    main E w1 = (Ok tt, w2)
    /\ docs_dir w2 = docs_dir w1
    /\ mkdocs_yml w2 = mkdocs_yml w1.
Proof.
  intros H1. destruct (main_run E w) as [out1 Hrun1]. rewrite Hrun1 in H1.
  injection H1 as Hres <-.
  destruct (main_outcome E (mkdocs_yml w)) as [r cfg1] eqn:Ho.
  cbn [fst snd] in *. subst r.
  destruct (main_run E (World (Some (synced E)) cfg1 out1)) as [out2 Hrun2].
  cbn [mkdocs_yml] in Hrun2. rewrite (main_outcome_twice E _ _ Ho) in Hrun2.
  eexists. split; [exact Hrun2|]. done.
Qed.

Lemma main_rerun_witness :
  exists w2,
    main E_two (main E_two w0).2 = (Ok tt, w2)
    /\ docs_dir w2 = Some ∅
    /\ mkdocs_yml w2 = mkdocs_yml w0.
Proof.
  destruct (main_rerun E_two w0 (main E_two w0).2) as (w2 & Hrun & Hd & Hc).
  - reflexivity.
  - exists w2. split; [exact Hrun|]. split.
    + rewrite Hd. reflexivity.
    + rewrite Hc. reflexivity.
Defined.

(** X20.  When the listing request finds no answer, the run still returns
    normally: it has emptied the destination directory, left [mkdocs.yml]
    alone and printed three lines, the second of which reports the
    failure. *)
Theorem main_listing_unreachable (E : env) (w : world) (msg : string) :
  get_contents E tree_url (auth_headers E) = Failed msg ->
  main E w
  = (Ok tt,
     World (Some ∅) (mkdocs_yml w)
           (stdout w ++ ["Starting CuMind documentation sync...";
                         "Error fetching docs list: " +:+ msg;
                         "No markdown files found in CuMind docs"])).
Proof.
  intros Hg. rewrite main_unfold.
  unfold fetch_docs_from_github, try_except, bind, requests_get. rewrite Hg.
  cbn. unfold print. cbn [docs_dir mkdocs_yml stdout].
  by rewrite <- !app_assoc.
Qed.

Lemma main_listing_unreachable_witness :
  main E_down w0
  = (Ok tt,
     World (Some ∅) (mkdocs_yml w0)
           ["Starting CuMind documentation sync...";
            "Error fetching docs list: timed out";
            "No markdown files found in CuMind docs"]).
Proof. apply (main_listing_unreachable E_down w0 "timed out"). reflexivity. Defined.

(** X21.  When documents are listed but none is written, because every
    download fails or returns the empty text, the run returns normally with
    an empty directory and with [mkdocs.yml] as it was: a section entry of
    an earlier run stays in the navigation. *)
Theorem main_nothing_written (E : env) (w : world) :
  (forall f, In f (listed E) -> fetched E f = None \/ fetched E f = Some "") ->
  exists out,
    main E w = (Ok tt, World (Some ∅) (mkdocs_yml w) out).
Proof.
  intros Hall.
  assert (Hrej : forall f, In f (listed E) -> accepts E f = false).
  { intros f Hin. by apply accepts_false, Hall. }
  destruct (main_run E w) as [out Hrun]. exists out.
  by rewrite Hrun, (main_outcome_rejected E _ Hrej), (synced_rejected E Hrej).
Qed.

Lemma main_nothing_written_witness :
  listed E_two <> []
  /\ exists out, main E_two w0 = (Ok tt, World (Some ∅) (mkdocs_yml w0) out)
                 /\ In stale_entry (nav_list (mkdocs_yml w0)).
Proof.
  split; [discriminate|].
  destruct (main_nothing_written E_two w0) as [out Hrun].
  - intros f [<-|[<-|[]]]; [by left | by right].
  - exists out. split; [exact Hrun|]. right. by left.
Defined.

(** ** More on titles *)

(** X22.  For a document name [<stem>.md] whose stem has no [.md]
    inside, the title expression removes the extension only: the title is
    the title-cased stem with [_] and [-] turned into spaces. *)
Theorem title_of_stem (s : string) :
  contains s ".md" = false ->
  title_of (s +:+ ".md") = title (replace "-" " " (replace "_" " " s)).
Proof.
  intros Hc. unfold title_of. by rewrite (replace_md_suffix s Hc).
Qed.

Lemma title_of_stem_witness :
  title_of "getting_started-v2.md" = "Getting Started V2".
Proof.
  change (title_of ("getting_started-v2" +:+ ".md") = "Getting Started V2").
  rewrite (title_of_stem "getting_started-v2"); reflexivity.
Defined.

Lemma title_char_no_separator (b : bool) (x : ascii) :
  let y := if Ascii.eqb x "_" || Ascii.eqb x "-" then " "%char else x in
  let z := if b then to_lower y else to_upper y in
  Ascii.eqb "_" z = false /\ Ascii.eqb "-" z = false.
Proof.
  destruct b, x as [[] [] [] [] [] [] [] []]; split; reflexivity.
Qed.

Lemma title_go_no_separator (b : bool) (u : string) :
  contains (title_go b (space_separators u)) "_" = false
  /\ contains (title_go b (space_separators u)) "-" = false.
Proof.
  revert b. induction u as [|x u IH]; intros b; [split; reflexivity|].
  cbn [space_separators title_go contains startswith].
  destruct (title_char_no_separator b x) as [-> ->].
  apply IH.
Qed.

(** X23.  A derived title never contains an underscore or a hyphen,
    whatever the file name is. *)
Theorem title_of_no_separator (filename : string) :
  contains (title_of filename) "_" = false
  /\ contains (title_of filename) "-" = false.
Proof.
  unfold title_of, title. rewrite replace_separators.
  apply title_go_no_separator.
Qed.

(** ** Counting the stored files *)

(** X24.  When the listed names are pairwise distinct, the directory ends
    with as many files as there are listed documents whose download
    returned a non-empty text. *)
Theorem main_store_size (E : env) (w : world) :
  NoDup (List.map name (listed E)) ->
  exists d,
    docs_dir (main E w).2 = Some d
    /\ size d = length (List.filter (accepts E) (listed E))
    /\ forall f, In f (listed E) ->
                 (is_Some (d !! name f)
                  <-> exists t, fetched E f = Some t /\ t <> "").
Proof.
  intros Hnd. exists (synced E). split; [apply main_store|]. split.
  - unfold synced. rewrite (foldl_store_size E _ _ Hnd) by (intros; apply lookup_empty).
    by rewrite map_size_empty.
  - intros f Hin. rewrite <- accepts_spec. split.
    + intros Hs. apply foldl_store_dom in Hs as [[v Hv]|(g & Hg & Hn & Ha)].
      * by rewrite lookup_empty in Hv.
      * by rewrite <- (NoDup_map_eq name _ g f Hnd Hg Hin Hn).
    + by apply foldl_store_is_Some.
Qed.

Lemma main_store_size_witness :
  exists d, docs_dir (main E0 w0).2 = Some d /\ size d = 2.
Proof.
  destruct (main_store_size E0 w0) as (d & Hd & Hsize & _).
  - apply (bool_decide_unpack _). by vm_compute.
  - exists d. split; [exact Hd|]. rewrite Hsize. reflexivity.
Defined.

Lemma main_store_from_remote_witness :
  exists d,
    docs_dir (main E0 w0).2 = Some d
    /\ docs_dir (main E0 w_plain).2 = Some d
    /\ d !! "old.md" = None.
Proof.
  destruct (main_store_from_remote E0 w0 w_plain) as (d & H1 & H2 & Hall).
  exists d. split; [exact H1|]. split; [exact H2|].
  destruct (d !! "old.md") as [v|] eqn:Hv; [|reflexivity].
  destruct (Hall _ _ Hv) as (f & t & Hin & Hn & _).
  destruct Hin as [<-|[<-|[<-|[]]]]; discriminate Hn.
Defined.

(** ** Empty downloads and the navigation *)

(** A run leaves [mkdocs.yml] as it was, or it has written a document and
    replaced the section by the entries of the synced directory. *)
Lemma main_config_cases (E : env) (w : world) :
  mkdocs_yml (main E w).2 = mkdocs_yml w
  \/ exists cfg items,
       mkdocs_yml w = YMap cfg
       /\ nav_items (YMap cfg) = Some items
       /\ (main E w).1 = Ok tt
       /\ mkdocs_yml (main E w).2
          = YMap (dict_set "nav"
                    (YList (List.filter not_cumind items
                            ++ [section_entry
                                  (List.map nav_entry (md_names (synced E)))]))
                    cfg).
Proof.
  destruct (main_run E w) as [out Hrun]. rewrite Hrun. cbn [fst snd mkdocs_yml].
  destruct (accepted_or_rejected E) as [Hrej|(g & Hin & Ha)].
  - left. by rewrite (main_outcome_rejected E _ Hrej).
  - destruct (nav_items (mkdocs_yml w)) as [items|] eqn:Hi.
    + destruct (nav_items_mapping _ _ Hi) as [cfg Hc]. rewrite Hc in *.
      right. exists cfg, items.
      by rewrite (main_outcome_ok E cfg items g Hin Ha Hi).
    + left. destruct (main_bad_config E w g Hin Ha Hi) as (e & out' & Hbad).
      rewrite Hrun in Hbad. by injection Hbad as _ -> _.
Qed.

(** C10, as stated, fails: [b.md] downloads as the empty text and is not
    written, nothing else is written either, so the run returns before the
    merge and the entry for [b.md] that an earlier run left in the section
    is still in the navigation. *)
Lemma empty_download_stale_entry_stays :
  In (FileInfo "b.md" "u/b") (listed E_two)
  /\ fetched E_two (FileInfo "b.md" "u/b") = Some ""
  /\ (main E_two w_b_listed).1 = Ok tt
  /\ docs_dir (main E_two w_b_listed).2 = Some ∅
  /\ In "CuMind/b.md" (section_strings (mkdocs_yml (main E_two w_b_listed).2)).
Proof.
  split; [right; by left|]. split; [reflexivity|]. split; [reflexivity|].
  split; [reflexivity|]. by left.
Qed.

(** C10, amended.  Let the download of [f] succeed with the empty text.
    Then the turn of the loop for [f] writes nothing (and prints nothing),
    and the whole run returns the same result and leaves the same directory
    and the same [mkdocs.yml] as a run in which that download fails.
    Unless another listed document of the same name is written, the
    directory has no file of that name after the run, and the run never
    puts the file into the navigation: when the run writes a document and
    [mkdocs.yml] can be merged, the section of the resulting [mkdocs.yml]
    has no entry and no path for it; and if its path is found in the
    section after the run at all, then the run left [mkdocs.yml] as it was
    and the path was there before. *)
Theorem empty_download_not_synced (E : env) (f : file_info) (msg : string)
    (w : world) :
  fetched E f = Some "" ->
  (forall d cfg out,
      sync_one E (auth_headers E) f (World (Some d) cfg out)
      = (Ok tt, World (Some d) cfg out))
  /\ fetched (fail_at E (download_url f) msg) f = None
  /\ (main E w).1 = (main (fail_at E (download_url f) msg) w).1
  /\ docs_dir (main E w).2 = docs_dir (main (fail_at E (download_url f) msg) w).2
  /\ mkdocs_yml (main E w).2
     = mkdocs_yml (main (fail_at E (download_url f) msg) w).2
  /\ ((forall g, In g (listed E) -> name g = name f ->
                 fetched E g = None \/ fetched E g = Some "") ->
      (exists d, docs_dir (main E w).2 = Some d
                 /\ d !! name f = None
                 /\ ~ In (name f) (md_names d))
      /\ (forall g items,
             In g (listed E) ->
             (exists t, fetched E g = Some t /\ t <> "") ->
             nav_items (mkdocs_yml w) = Some items ->
             (main E w).1 = Ok tt
             /\ section_entries (mkdocs_yml (main E w).2)
                = [YMap [("CuMind",
                          YList (List.map nav_entry (md_names (synced E))))]]
             /\ ~ In (nav_entry (name f)) (List.map nav_entry (md_names (synced E)))
             /\ ~ In ("CuMind/" +:+ name f)
                     (section_strings (mkdocs_yml (main E w).2)))
      /\ (In ("CuMind/" +:+ name f) (section_strings (mkdocs_yml (main E w).2)) ->
          mkdocs_yml (main E w).2 = mkdocs_yml w
          /\ In ("CuMind/" +:+ name f) (section_strings (mkdocs_yml w)))).
Proof.
  intros Hf.
  split; [|split; [|split; [|split; [|split]]]].
  - intros d cfg out0. unfold sync_one.
    rewrite (bind_ok _ _ _ _ _ (download_file_some E f "" _ Hf)). reflexivity.
  - rewrite fetched_fail_at. by rewrite String.eqb_refl.
  - destruct (main_run E w) as [out ->].
    destruct (main_run (fail_at E (download_url f) msg) w) as [out' ->].
    cbn [fst]. by rewrite (main_outcome_fail_at E f msg _ Hf).
  - by rewrite !main_store, (synced_fail_at E f msg Hf).
  - destruct (main_run E w) as [out ->].
    destruct (main_run (fail_at E (download_url f) msg) w) as [out' ->].
    cbn [snd mkdocs_yml]. by rewrite (main_outcome_fail_at E f msg _ Hf).
  - intros Hsame.
    assert (Hrej : forall g, In g (listed E) -> name g = name f ->
                             accepts E g = false).
    { intros g Hg Hn. by apply accepts_false, Hsame. }
    assert (Hnone : synced E !! name f = None).
    { unfold synced. rewrite foldl_store_lookup_old; [apply lookup_empty | done]. }
    assert (Hnot : ~ In (name f) (md_names (synced E))).
    { intros Hin. apply md_names_In in Hin as [[v Hv] _]. congruence. }
    assert (Hpath : ~ In ("CuMind/" +:+ name f)
                        (List.map (fun g => "CuMind/" +:+ g) (md_names (synced E)))).
    { intros Hin. apply in_map_iff in Hin as (g & Hg & Hin).
      apply (inj (String.app "CuMind/")) in Hg. by subst g. }
    assert (Hmerged : forall cfg items,
               section_strings
                 (YMap (dict_set "nav"
                          (YList (List.filter not_cumind items
                                  ++ [section_entry
                                        (List.map nav_entry (md_names (synced E)))]))
                          cfg))
               = List.map (fun g => "CuMind/" +:+ g) (md_names (synced E))).
    { intros cfg items. unfold section_strings.
      rewrite section_entries_merged. simpl.
      rewrite !app_nil_r. apply yaml_strings_nav_entries. }
    split; [|split].
    + exists (synced E). by rewrite main_store.
    + intros g items Hg Hacc Hi.
      assert (Ha : accepts E g = true) by by apply accepts_spec.
      destruct (nav_items_mapping _ _ Hi) as [cfg Hc]. rewrite Hc in Hi.
      destruct (main_run E w) as [out Hrun]. rewrite Hrun.
      rewrite Hc, (main_outcome_ok E cfg items g Hg Ha Hi).
      cbn [fst snd mkdocs_yml]. split; [done|].
      split; [apply section_entries_merged|]. split.
      * intros Hin. apply in_map_iff in Hin as (h & Hh & Hin).
        apply nav_entry_inj in Hh. by subst h.
      * by rewrite Hmerged.
    + intros Hin.
      destruct (main_config_cases E w) as [Hkeep|(cfg & items & _ & _ & _ & Hnew)].
      * rewrite Hkeep in Hin. done.
      * rewrite Hnew, Hmerged in Hin. done.
Qed.

Lemma empty_download_not_synced_witness :
  fetched E0_empty (FileInfo "c.md" "u/c") = Some ""
  /\ (main E0_empty w0).1 = (main (fail_at E0_empty "u/c" "timed out") w0).1
  /\ docs_dir (main E0_empty w0).2
     = docs_dir (main (fail_at E0_empty "u/c" "timed out") w0).2
  /\ mkdocs_yml (main E0_empty w0).2
     = mkdocs_yml (main (fail_at E0_empty "u/c" "timed out") w0).2
  /\ (exists d, docs_dir (main E0_empty w0).2 = Some d
                /\ d !! "c.md" = None)
  /\ (main E0_empty w0).1 = Ok tt
  /\ ~ In "CuMind/c.md" (section_strings (mkdocs_yml (main E0_empty w0).2)).
Proof.
  split; [reflexivity|].
  destruct (empty_download_not_synced E0_empty (FileInfo "c.md" "u/c")
              "timed out" w0 eq_refl)
    as (_ & _ & Hres & Hdir & Hcfg & Hnav).
  split; [exact Hres|]. split; [exact Hdir|]. split; [exact Hcfg|].
  destruct Hnav as ((d & Hd & Hnone & _) & Hwritten & _).
  - intros g [<-|[<-|[<-|[]]]] Hn; try discriminate Hn. by right.
  - split; [exists d; split; [exact Hd | exact Hnone]|].
    destruct (Hwritten (FileInfo "a-intro.md" "u/a") [home; stale_entry])
      as (Hok & _ & _ & Hpath).
    + right. by left.
    + exists "# Intro". split; [reflexivity | discriminate].
    + reflexivity.
    + split; [exact Hok | exact Hpath].
Defined.
